(* ====================================================================== *)
(*  MEMS_serial_device.py : a shallow embedding of the MEMS_device class   *)
(*                                                                        *)
(*  Bytes and decoded text are both lists of integers (bytes 0..255, code  *)
(*  points).  The serial port is a pair of byte queues: what the host has *)
(*  written, and the replies the driver board has queued for reading.     *)
(*  Python exceptions are an outcome of the state monad that keeps the    *)
(*  state reached when the exception is raised.                            *)
(* ====================================================================== *)

From Stdlib Require Import ZArith QArith List String Ascii Bool Lia Wf_nat
  RelationClasses.
Import ListNotations.
Open Scope Z_scope.

(* ---------------------------------------------------------------------- *)
(** * Bytes, text and literals *)

Definition bytes := list Z.
Definition text := list Z.

(** A Python literal written with ASCII characters, as its code points. *)
Definition lit (s : string) : list Z :=
  map (fun c => Z.of_nat (nat_of_ascii c)) (list_ascii_of_string s).

Definition is_ascii (c : Z) : bool := (0 <=? c) && (c <? 128).

Fixpoint list_Z_eqb (a b : list Z) : bool :=
  match a, b with
  | [], [] => true
  | x :: a', y :: b' => (x =? y) && list_Z_eqb a' b'
  | _, _ => false
  end.

(** [s[-k:]] *)
Definition lastn {A} (k : nat) (l : list A) : list A :=
  skipn (List.length l - k) l.

(** [s[-1]] : [None] is Python's IndexError on an empty sequence. *)
Definition last_opt {A} (l : list A) : option A :=
  match rev l with [] => None | x :: _ => Some x end.

(* ---------------------------------------------------------------------- *)
(** * Exceptions *)

Inductive exc :=
| UnicodeEncodeError   (* bytes(cmd, 'ascii') on a non-ASCII str *)
| UnicodeDecodeError   (* bytes.decode() on bytes that are not UTF-8 *)
| IndexError.          (* str[-1] on an empty str *)

Inductive outcome (A : Type) :=
| Ret (a : A)
| Raise (e : exc).
Arguments Ret {A} a.
Arguments Raise {A} e.

Definition obind {A B} (o : outcome A) (k : A -> outcome B) : outcome B :=
  match o with Ret a => k a | Raise e => Raise e end.

Notation "'let*' x := o 'in' k" := (obind o (fun x => k))
  (at level 200, x name, o at level 100, k at level 200).

(* ---------------------------------------------------------------------- *)
(** * bytes.decode() : strict UTF-8 as CPython decodes it *)

Definition in_range (lo hi b : Z) : bool := (lo <=? b) && (b <=? hi).
Definition cont (b : Z) : bool := in_range 128 191 b.

(** Bounds of the second byte of a 3- or 4-byte sequence (no overlong
    forms, no surrogates, nothing above U+10FFFF). *)
Definition second_lo (b0 : Z) : Z :=
  if b0 =? 224 then 160 else if b0 =? 240 then 144 else 128.
Definition second_hi (b0 : Z) : Z :=
  if b0 =? 237 then 159 else if b0 =? 244 then 143 else 191.

Definition cp_cons (c : Z) (o : option text) : option text :=
  match o with Some t => Some (c :: t) | None => None end.

Fixpoint utf8_decode (l : bytes) : option text :=
  match l with
  | [] => Some []
  | b0 :: t =>
    if b0 <? 128 then cp_cons b0 (utf8_decode t) else
    match t with
    | [] => None
    | b1 :: t1 =>
      if in_range 194 223 b0 then
        (if cont b1
         then cp_cons ((b0 - 192) * 64 + (b1 - 128)) (utf8_decode t1)
         else None)
      else
      match t1 with
      | [] => None
      | b2 :: t2 =>
        if in_range 224 239 b0 then
          (if in_range (second_lo b0) (second_hi b0) b1 && cont b2
           then cp_cons ((b0 - 224) * 4096 + (b1 - 128) * 64 + (b2 - 128))
                        (utf8_decode t2)
           else None)
        else
        match t2 with
        | [] => None
        | b3 :: t3 =>
          if in_range 240 244 b0 && in_range (second_lo b0) (second_hi b0) b1
             && cont b2 && cont b3
          then cp_cons ((b0 - 240) * 262144 + (b1 - 128) * 4096
                        + (b2 - 128) * 64 + (b3 - 128)) (utf8_decode t3)
          else None
        end
      end
    end
  end.

(** One character of [utf8_decode]: its code point and the rest. *)
Definition utf8_char (b0 : Z) (t : bytes) : option (Z * bytes) :=
  if b0 <? 128 then Some (b0, t) else
  match t with
  | [] => None
  | b1 :: t1 =>
    if in_range 194 223 b0 then
      (if cont b1 then Some ((b0 - 192) * 64 + (b1 - 128), t1) else None)
    else
    match t1 with
    | [] => None
    | b2 :: t2 =>
      if in_range 224 239 b0 then
        (if in_range (second_lo b0) (second_hi b0) b1 && cont b2
         then Some ((b0 - 224) * 4096 + (b1 - 128) * 64 + (b2 - 128), t2)
         else None)
      else
      match t2 with
      | [] => None
      | b3 :: t3 =>
        if in_range 240 244 b0 && in_range (second_lo b0) (second_hi b0) b1
           && cont b2 && cont b3
        then Some ((b0 - 240) * 262144 + (b1 - 128) * 4096
                   + (b2 - 128) * 64 + (b3 - 128), t3)
        else None
      end
    end
  end.

Definition decode (b : bytes) : outcome text :=
  match utf8_decode b with Some t => Ret t | None => Raise UnicodeDecodeError end.

(* ---------------------------------------------------------------------- *)
(** * The argument of [_send_cmd] and its normalization (lines 74-81) *)

Inductive cmd_arg :=
| CStr (s : text)       (* a Python str, as code points *)
| CBytes (b : bytes).   (* a Python bytes object *)

(** [if(type(cmd) != bytes): cmd = bytes(cmd, 'ascii')] *)
Definition to_bytes (c : cmd_arg) : outcome bytes :=
  match c with
  | CStr s => if forallb is_ascii s then Ret s else Raise UnicodeEncodeError
  | CBytes b => Ret b
  end.

Definition crlf : text := [13; 10].
Definition lfcr : text := [10; 13].

(** Lines 74-81.  The two [cmd.decode()] calls of line 76 decode the same
    bytes, so one decode stands for both. *)
Definition normalize (c : cmd_arg) : outcome bytes :=
  let* b := to_bytes c in
  let* d := decode b in
  let b1 := if list_Z_eqb (lastn 2 d) crlf || list_Z_eqb (lastn 2 d) lfcr
            then firstn (List.length b - 2) b else b in
  let* d1 := decode b1 in
  let b2 := if list_Z_eqb (lastn 1 d1) [13]
            then firstn (List.length b1 - 1) b1 else b1 in
  let* d2 := decode b2 in
  match last_opt d2 with
  | None => Raise IndexError
  | Some ch => if negb (ch =? 10) then Ret (b2 ++ [10]) else Ret b2
  end.

(* ---------------------------------------------------------------------- *)
(** * Python values passed to the public methods *)

(** A Python float: its value and the ASCII text [str()] gives for it.
    NaN and the infinities are left out. *)
Record pyfloat := mk_pyfloat {
  fval : Q;
  frepr : text;
  frepr_ascii : forallb is_ascii frepr = true }.

(** Numbers given to [set_mirror_position]. *)
Inductive pynum :=
| NInt (z : Z)
| NFloat (f : pyfloat).

Definition num_val (n : pynum) : Q :=
  match n with NInt z => inject_Z z | NFloat f => fval f end.

(** Any value given to a parameter setter. *)
Inductive pyval :=
| PInt (z : Z)
| PBool (b : bool)
| PFloat (f : pyfloat)
| PStr (s : text)
| PNone.

(** Python's [a < b] on numbers (ints and finite floats compare exactly). *)
Definition py_lt (a b : Q) : bool := negb (Qle_bool b a).

(** [str(n)] for a non-negative int: decimal digits. *)
Fixpoint digits_aux (fuel : nat) (n : Z) (acc : text) : text :=
  match fuel with
  | O => acc
  | S f =>
    let acc' := (48 + n mod 10) :: acc in
    if n <? 10 then acc' else digits_aux f (n / 10) acc'
  end.

Definition py_str_int (z : Z) : text :=
  if z <? 0 then 45 :: digits_aux (S (Z.to_nat (Z.log2 (- z)))) (- z) []
  else digits_aux (S (Z.to_nat (Z.log2 z))) z [].

Definition py_str_num (n : pynum) : text :=
  match n with NInt z => py_str_int z | NFloat f => frepr f end.

(* ---------------------------------------------------------------------- *)
(** * Session state *)

(** [settings] and [position] are class attributes of [MEMS_device]: the
    dicts are shared by every instance, and [__init__] does not reset them.
    [is_HV_on] becomes an instance attribute on its first assignment. *)
Record session := mk_session {
  is_HV_on : bool;
  Vbias : option Z;
  VdifferenceMax : option Z;
  HardwareFilterBW : option Z;
  pos_x : pynum;
  pos_y : pynum;
  written : list bytes;     (* every [ser.write], oldest first *)
  incoming : list bytes;    (* replies of the board not read yet *)
  closed : bool;            (* [ser.close()] was called *)
  console : list text }.    (* lines printed by [__init__] and [__str__] *)

Inductive setting := SVbias | SVdifferenceMax | SHardwareFilterBW.

Definition get_setting (k : setting) (s : session) : option Z :=
  match k with
  | SVbias => Vbias s
  | SVdifferenceMax => VdifferenceMax s
  | SHardwareFilterBW => HardwareFilterBW s
  end.

Definition set_setting (k : setting) (v : option Z) (s : session) : session :=
  let '(a, b, c) :=
    match k with
    | SVbias => (v, VdifferenceMax s, HardwareFilterBW s)
    | SVdifferenceMax => (Vbias s, v, HardwareFilterBW s)
    | SHardwareFilterBW => (Vbias s, VdifferenceMax s, v)
    end in
  mk_session (is_HV_on s) a b c (pos_x s) (pos_y s)
             (written s) (incoming s) (closed s) (console s).

Definition set_HV (b : bool) (s : session) : session :=
  mk_session b (Vbias s) (VdifferenceMax s) (HardwareFilterBW s) (pos_x s)
             (pos_y s) (written s) (incoming s) (closed s) (console s).

Definition set_position (x y : pynum) (s : session) : session :=
  mk_session (is_HV_on s) (Vbias s) (VdifferenceMax s) (HardwareFilterBW s)
             x y (written s) (incoming s) (closed s) (console s).

Definition set_port (w : list bytes) (i : list bytes) (c : bool) (s : session)
  : session :=
  mk_session (is_HV_on s) (Vbias s) (VdifferenceMax s) (HardwareFilterBW s)
             (pos_x s) (pos_y s) w i c (console s).

Definition add_console (t : text) (s : session) : session :=
  mk_session (is_HV_on s) (Vbias s) (VdifferenceMax s) (HardwareFilterBW s)
             (pos_x s) (pos_y s) (written s) (incoming s) (closed s)
             (console s ++ [t]).

(* ---------------------------------------------------------------------- *)
(** * The state and exception monad *)

Definition M (A : Type) := session -> outcome A * session.

Definition ret {A} (a : A) : M A := fun s => (Ret a, s).

Definition bind {A B} (m : M A) (k : A -> M B) : M B :=
  fun s => match m s with
           | (Ret a, s') => k a s'
           | (Raise e, s') => (Raise e, s')
           end.

Notation "x <- m ;; k" := (bind m (fun x => k))
  (at level 61, m at next level, right associativity).
Notation "m ;; k" := (bind m (fun _ => k))
  (at level 61, right associativity).

Definition get : M session := fun s => (Ret s, s).
Definition modify (f : session -> session) : M unit := fun s => (Ret tt, f s).
Definition lift {A} (o : outcome A) : M A := fun s => (o, s).
Definition print (t : text) : M unit := modify (add_console t).

(* ---------------------------------------------------------------------- *)
(** * The serial port (pyserial) *)

(** [ser.read(n)]: at most [n] bytes of the reply waiting at the head of
    the queue; what is left of it stays queued.  Nothing queued: [b''],
    as on a read timeout. *)
Definition read_chunk (n : nat) (inc : list bytes) : bytes * list bytes :=
  match inc with
  | [] => ([], [])
  | h :: t =>
    match skipn n h with
    | [] => (firstn n h, t)
    | rest => (firstn n h, rest :: t)
    end
  end.

Fixpoint split_line (b : bytes) : bytes * bytes :=
  match b with
  | [] => ([], [])
  | x :: t => if x =? 10 then ([x], t)
              else let '(l, r) := split_line t in (x :: l, r)
  end.

(** [ser.readline()]: up to and including the first line feed. *)
Definition readline_chunk (inc : list bytes) : bytes * list bytes :=
  match inc with
  | [] => ([], [])
  | h :: t =>
    match split_line h with
    | (l, []) => (l, t)
    | (l, rest) => (l, rest :: t)
    end
  end.

Definition ser_write (b : bytes) : M unit :=
  modify (fun s => set_port (written s ++ [b]) (incoming s) (closed s) s).

Definition ser_read (n : nat) : M bytes :=
  fun s => let '(r, rest) := read_chunk n (incoming s) in
           (Ret r, set_port (written s) rest (closed s) s).

Definition ser_readline : M bytes :=
  fun s => let '(r, rest) := readline_chunk (incoming s) in
           (Ret r, set_port (written s) rest (closed s) s).

Definition ser_close : M unit :=
  modify (fun s => set_port (written s) (incoming s) true s).

(** What the next [ser.read(n)] / [ser.readline()] returns. *)
Definition next_read (n : nat) (s : session) : bytes :=
  fst (read_chunk n (incoming s)).
Definition next_line (s : session) : bytes :=
  fst (readline_chunk (incoming s)).

(* ---------------------------------------------------------------------- *)
(** * Protocol literals *)

Definition LF : Z := 10.
Definition CR : Z := 13.

Definition MTI_OK : text := lit "MTI-OK" ++ [CR; LF].
Definition MTI_ERR_InvalidCommand : bytes :=
  lit "MTI-ERR InvalidCommand" ++ [CR; LF].
Definition MTI_Exit_Ack : bytes :=
  lit "MTI-Device Exit Command Mode" ++ [CR; LF].

(* ---------------------------------------------------------------------- *)
(** * MEMS_device methods *)

(** [_send_cmd(cmd, read_n_char=250)] (lines 71-91); the settling
    [sleep] and the prints are left out. *)
Definition send_cmd (read_n_char : nat) (cmd : cmd_arg) : M text :=
  b <- lift (normalize cmd) ;;
  ser_write b ;;
  r <- ser_read read_n_char ;;
  lift (decode r).

(** Body shared by [set_Vbias], [set_VdifferenceMax] and
    [set_HardwareFilterBW] (lines 97-156): command token, bounds, slot. *)
Definition set_param (tok : text) (lo hi : Z) (k : setting) (v : pyval)
  : M bool :=
  s <- get ;;
  if is_HV_on s then ret false else
  match v with
  | PInt z =>
    if (z <? lo) || (hi <? z) then ret false else
    resp <- send_cmd 250 (CStr (tok ++ py_str_int z)) ;;
    if list_Z_eqb resp MTI_OK
    then modify (set_setting k (Some z)) ;; ret true
    else ret false
  | _ => ret false      (* type(v) != int *)
  end.

Definition set_Vbias (v : pyval) : M bool :=
  set_param (lit "MTI+VB ") 0 100 SVbias v.

Definition set_VdifferenceMax (v : pyval) : M bool :=
  set_param (lit "MTI+VD ") 0 200 SVdifferenceMax v.

Definition set_HardwareFilterBW (v : pyval) : M bool :=
  set_param (lit "MTI+BW ") 50 15000 SHardwareFilterBW v.

(** Lines 162-166. *)
Definition set_mirror_params (a b c : pyval) : M bool :=
  cmd1_sent <- set_Vbias a ;;
  cmd2_sent <- set_VdifferenceMax b ;;
  cmd3_sent <- set_HardwareFilterBW c ;;
  ret (negb (negb cmd1_sent || negb cmd2_sent || negb cmd3_sent)).

Definition get_mirror_params : M (option Z * option Z * option Z) :=
  s <- get ;; ret (Vbias s, VdifferenceMax s, HardwareFilterBW s).

(** Lines 178-192.  The result is [Some b] for [return b] and [None] when
    the method falls off its end (Python's [None]). *)
Definition set_mirror_position (x y : pynum) : M (option bool) :=
  if py_lt (num_val x) (-1) || py_lt (num_val y) (-1)
     || py_lt 1 (num_val x) || py_lt 1 (num_val y)
  then ret (Some false) else
  resp <- send_cmd 250 (CStr (lit "MTI+GT " ++ py_str_num x ++ lit " "
                               ++ py_str_num y ++ lit " 0")) ;;
  if list_Z_eqb resp MTI_OK
  then modify (set_position x y) ;; ret (Some true)
  else ret None.

Definition get_mirror_position : M (pynum * pynum) :=
  s <- get ;; ret (pos_x s, pos_y s).

Definition is_none (o : option Z) : bool :=
  match o with None => true | Some _ => false end.

(** Lines 209-224. *)
Definition HV_on : M bool :=
  p <- get_mirror_params ;;
  let '(vb, vd, hw) := p in
  if existsb is_none [vb; vd; hw] then ret false else
  resp <- send_cmd 250 (CStr (lit "MTI+EN" ++ [LF])) ;;
  if list_Z_eqb resp MTI_OK then modify (set_HV true) ;; ret true
  else ret false.

(** Lines 230-237. *)
Definition HV_off : M bool :=
  resp <- send_cmd 250 (CStr (lit "MTI+DI" ++ [LF])) ;;
  if list_Z_eqb resp MTI_OK then modify (set_HV false) ;; ret true
  else ret false.

(** [exit_safely], lines 256-261: back to [0,0]; a failure only warns. *)
Definition exit_recenter : M unit :=
  p <- get_mirror_position ;;
  let '(xpos, ypos) := p in
  if negb (Qeq_bool (num_val xpos) 0) || negb (Qeq_bool (num_val ypos) 0)
  then _ <- set_mirror_position (NInt 0) (NInt 0) ;; ret tt
  else ret tt.

(** Lines 264-268: high voltage off; a failure only warns. *)
Definition exit_HV_off : M unit :=
  s <- get ;;
  if is_HV_on s then _ <- HV_off ;; ret tt else ret tt.

(** Lines 271-285: log out, close the port only on the exit literal. *)
Definition exit_logout (verbose : bool) : M bool :=
  ser_write (lit "MTI+EX" ++ [LF]) ;;
  response <- ser_readline ;;
  (if verbose then _ <- lift (decode response) ;; ret tt else ret tt) ;;
  if list_Z_eqb response MTI_Exit_Ack
  then ser_close ;; ret true
  else ret false.

Definition exit_safely (verbose : bool) : M bool :=
  exit_recenter ;; exit_HV_off ;; exit_logout verbose.

(** [__init__] (lines 31-51) after [serial.Serial(...)] has opened the port.
    The lines printed when nothing answers (the port name that follows the
    first one is left out). *)
Definition no_device_msg : list text :=
  [lit "Connection unsuccessful: no MEMS driver found on port:";
   lit "To check USB connections, open a terminal and run the command:";
   lit "    ls -l /dev/serial/by-id";
   lit "To check port permissions, open a terminal and run the command:";
   lit "    ls -l /dev/insert_your_port_name_here";
   lit "See readme for additional guidance"].

Fixpoint print_all (l : list text) : M unit :=
  match l with [] => ret tt | t :: r => print t ;; print_all r end.

Definition sign_on (verbose : bool) : M unit :=
  ser_write (lit "$MTI$" ++ [LF]) ;;
  resp <- ser_readline ;;
  if list_Z_eqb resp [] then print_all no_device_msg
  else if verbose && negb (list_Z_eqb resp MTI_ERR_InvalidCommand)
  then d <- lift (decode resp) ;; print d
  else ret tt.

(** A new instance: HV off, the class-level settings and position, a
    freshly opened port whose queue holds the board's replies. *)
Definition fresh_session (vb vd hw : option Z) (x y : pynum)
  (replies : list bytes) : session :=
  mk_session false vb vd hw x y [] replies false [].

Definition MEMS_device (verbose : bool) (vb vd hw : option Z) (x y : pynum)
  (replies : list bytes) : outcome unit * session :=
  sign_on verbose (fresh_session vb vd hw x y replies).

(** A payload already in normal form: it ends with LF and the byte before
    that LF, if any, is not CR. *)
Definition is_normalized (p : bytes) : bool :=
  match rev p with
  | x :: r => (x =? LF) && match r with y :: _ => negb (y =? CR) | [] => true end
  | [] => false
  end.

(* ---------------------------------------------------------------------- *)
(** * Concrete sessions for the sample runs *)

(** Parameters set, mirror at [x, y], HV as given, [replies] queued. *)
Definition demo_session (hv : bool) (x y : pynum) (replies : list bytes) : session :=
  mk_session hv (Some 90) (Some 100) (Some 200) x y [] replies false [].

(** Spec statement of one parameter setter with command token [tok] over
    the closed range [lo, hi]: with HV off an in-range int is sent as
    [tok ++ str(z) ++ "\n"] and committed on the acknowledgement only, and
    anything else is refused without touching the session. *)
Definition setter_contract (set : pyval -> M bool) (tok : text) (k : setting)
  (lo hi : Z) (v : pyval) (s : session) : Prop :=
  let '(o, s') := set v s in
  (forall z, v = PInt z -> lo <= z <= hi ->
     written s' = written s ++ [tok ++ py_str_int z ++ [LF]] /\
     (utf8_decode (next_read 250 s) = Some MTI_OK ->
        o = Ret true /\ get_setting k s' = Some z) /\
     (forall t, utf8_decode (next_read 250 s) = Some t -> t <> MTI_OK ->
        o = Ret false /\ get_setting k s' = get_setting k s) /\
     (utf8_decode (next_read 250 s) = None ->
        o = Raise UnicodeDecodeError /\ get_setting k s' = get_setting k s)) /\
  ((forall z, v <> PInt z) \/ (exists z, v = PInt z /\ (z < lo \/ hi < z)) ->
     o = Ret false /\ s' = s).

(* ---------------------------------------------------------------------- *)
(** * The other methods of MEMS_device *)

(** [troubleshoot] (lines 244-248); the prints are left out. *)
Definition troubleshoot : M unit :=
  _ <- send_cmd 250 (CStr (lit "MTI+EC" ++ [LF])) ;; ret tt.

(** [str(v)] of a cached setting: ["None"], or the int's digits. *)
Definition py_str_setting (o : option Z) : text :=
  match o with None => lit "None" | Some z => py_str_int z end.

(** The lines [__str__] prints (lines 58-64); [print(a, b)] joins its
    arguments with one space. *)
Definition report_lines (s : session) : list text :=
  [lit "==------MEMS DRIVER------==";
   if is_HV_on s then lit "Driver is currently ON" else lit "Driver is currently OFF";
   lit "           Vbias = " ++ py_str_setting (Vbias s);
   lit "  VdifferenceMax = " ++ py_str_setting (VdifferenceMax s);
   lit "HardwareFilterBW = " ++ py_str_setting (HardwareFilterBW s);
   lit "==-----------------------=="].

(** [__str__] (lines 57-65): prints the report, returns [""]. *)
Definition MEMS_str : M text :=
  s <- get ;; print_all (report_lines s) ;; ret [].

(** [get_mirror_params(verbose)] (lines 171-173).  [print(self)] runs
    [__str__], then prints the [""] it returns as an empty line. *)
Definition get_mirror_params_v (verbose : bool)
  : M (option Z * option Z * option Z) :=
  (if verbose then r <- MEMS_str ;; print r else ret tt) ;;
  get_mirror_params.

(* ---------------------------------------------------------------------- *)
(** * The three setters, indexed by the setting they change *)

Definition setter (k : setting) : pyval -> M bool :=
  match k with
  | SVbias => set_Vbias
  | SVdifferenceMax => set_VdifferenceMax
  | SHardwareFilterBW => set_HardwareFilterBW
  end.

Definition setter_token (k : setting) : text :=
  match k with
  | SVbias => lit "MTI+VB "
  | SVdifferenceMax => lit "MTI+VD "
  | SHardwareFilterBW => lit "MTI+BW "
  end.

Definition setter_lo (k : setting) : Z :=
  match k with SVbias => 0 | SVdifferenceMax => 0 | SHardwareFilterBW => 50 end.

Definition setter_hi (k : setting) : Z :=
  match k with SVbias => 100 | SVdifferenceMax => 200 | SHardwareFilterBW => 15000 end.

(** The command [set_mirror_position(x, y)] sends, after normalization. *)
Definition goto_cmd (x y : pynum) : bytes :=
  lit "MTI+GT " ++ py_str_num x ++ lit " " ++ py_str_num y ++ lit " 0" ++ [LF].

(** A call a user of the class makes, other than [HV_off] and
    [exit_safely]: every other method, and [_send_cmd] with its own
    payload. *)
Inductive method_call : Type :=
| call_set_Vbias (v : pyval)
| call_set_VdifferenceMax (v : pyval)
| call_set_HardwareFilterBW (v : pyval)
| call_set_mirror_params (a b c : pyval)
| call_get_mirror_params (verbose : bool)
| call_set_mirror_position (x y : pynum)
| call_get_mirror_position
| call_str
| call_HV_on
| call_troubleshoot
| call_send_cmd (read_n_char : nat) (cmd : cmd_arg).

(** The object after the call, whether it returned or raised (a caller
    that catches the exception goes on with the same object). *)
Definition after_call (c : method_call) (s : session) : session :=
  match c with
  | call_set_Vbias v => snd (set_Vbias v s)
  | call_set_VdifferenceMax v => snd (set_VdifferenceMax v s)
  | call_set_HardwareFilterBW v => snd (set_HardwareFilterBW v s)
  | call_set_mirror_params a b c => snd (set_mirror_params a b c s)
  | call_get_mirror_params verbose => snd (get_mirror_params_v verbose s)
  | call_set_mirror_position x y => snd (set_mirror_position x y s)
  | call_get_mirror_position => snd (get_mirror_position s)
  | call_str => snd (MEMS_str s)
  | call_HV_on => snd (HV_on s)
  | call_troubleshoot => snd (troubleshoot s)
  | call_send_cmd n cmd => snd (send_cmd n cmd s)
  end.

Fixpoint after_calls (l : list method_call) (s : session) : session :=
  match l with [] => s | c :: r => after_calls r (after_call c s) end.

(* ---------------------------------------------------------------------- *)
(** * What a method may change *)

(** [m] relates every state to the state it leaves. *)
Definition preserves (R : session -> session -> Prop) {A} (m : M A) : Prop :=
  forall s, R s (snd (m s)).

Definition same_closed (s s' : session) : Prop := closed s' = closed s.

Definition same_HV (s s' : session) : Prop := is_HV_on s' = is_HV_on s.

Definition same_settings (s s' : session) : Prop :=
  Vbias s' = Vbias s /\ VdifferenceMax s' = VdifferenceMax s
  /\ HardwareFilterBW s' = HardwareFilterBW s.

Definition same_setting (k : setting) (s s' : session) : Prop :=
  get_setting k s' = get_setting k s.

Definition same_position (s s' : session) : Prop :=
  pos_x s' = pos_x s /\ pos_y s' = pos_y s.

Definition ends_with_LF (b : bytes) : Prop := exists q, b = q ++ [LF].

(** HV stays on once it is on. *)
Definition HV_stays_on (s s' : session) : Prop := is_HV_on s = true -> is_HV_on s' = true.

(** Every command in the write log ends with a line feed, if it did before. *)
Definition log_LF (s s' : session) : Prop :=
  Forall ends_with_LF (written s) -> Forall ends_with_LF (written s').

(** [m] appends at most [n] writes to the log and rewrites none. *)
Definition writes_le (n : nat) {A} (m : M A) : Prop :=
  forall s, exists w, written (snd (m s)) = written s ++ w /\ (List.length w <= n)%nat.

(* ====================================================================== *)
(** * Properties *)

(* ---------------------------------------------------------------------- *)
(** ** Sample runs *)

Example normalize_ex1 :
  normalize (CStr (lit "MTI+EN")) = Ret (lit "MTI+EN" ++ [10]).
Proof. reflexivity. Qed.

Example py_str_int_ex :
  py_str_int 15000 = lit "15000" /\ py_str_int 0 = lit "0"
  /\ py_str_int (-1) = lit "-1".
Proof. repeat split; reflexivity. Qed.

Example exit_scenario_ok :
  let s := mk_session true (Some 90) (Some 100) (Some 200)
             (NInt 1) (NInt 0) [] [MTI_OK; MTI_OK; MTI_Exit_Ack] false [] in
  let '(o, s') := exit_safely true s in
  o = Ret true /\ closed s' = true /\ is_HV_on s' = false
  /\ written s' = [lit "MTI+GT 0 0 0" ++ [LF]; lit "MTI+DI" ++ [LF];
                   lit "MTI+EX" ++ [LF]].
Proof. vm_compute. repeat split. Qed.

(* ---------------------------------------------------------------------- *)
(** ** UTF-8 decoding *)

Lemma utf8_decode_cons b0 t :
  utf8_decode (b0 :: t) =
  match utf8_char b0 t with
  | Some (c, rest) => cp_cons c (utf8_decode rest)
  | None => None
  end.
Proof.
  unfold utf8_char. change (utf8_decode (b0 :: t)) with
    (if b0 <? 128 then cp_cons b0 (utf8_decode t) else
    match t with
    | [] => None
    | b1 :: t1 =>
      if in_range 194 223 b0 then
        (if cont b1
         then cp_cons ((b0 - 192) * 64 + (b1 - 128)) (utf8_decode t1)
         else None)
      else
      match t1 with
      | [] => None
      | b2 :: t2 =>
        if in_range 224 239 b0 then
          (if in_range (second_lo b0) (second_hi b0) b1 && cont b2
           then cp_cons ((b0 - 224) * 4096 + (b1 - 128) * 64 + (b2 - 128))
                        (utf8_decode t2)
           else None)
        else
        match t2 with
        | [] => None
        | b3 :: t3 =>
          if in_range 240 244 b0 && in_range (second_lo b0) (second_hi b0) b1
             && cont b2 && cont b3
          then cp_cons ((b0 - 240) * 262144 + (b1 - 128) * 4096
                        + (b2 - 128) * 64 + (b3 - 128)) (utf8_decode t3)
          else None
        end
      end
    end).
  destruct (b0 <? 128); [reflexivity|].
  destruct t as [|b1 t1]; [reflexivity|].
  destruct (in_range 194 223 b0); [destruct (cont b1); reflexivity|].
  destruct t1 as [|b2 t2]; [reflexivity|].
  destruct (in_range 224 239 b0);
    [destruct (in_range (second_lo b0) (second_hi b0) b1 && cont b2); reflexivity|].
  destruct t2 as [|b3 t3]; [reflexivity|].
  destruct (in_range 240 244 b0 && in_range (second_lo b0) (second_hi b0) b1
            && cont b2 && cont b3); reflexivity.
Qed.

Ltac char_cases H :=
  unfold utf8_char in *;
  repeat match type of H with
  | context [if ?c then _ else _] => let E := fresh "E" in destruct c eqn:E
  | context [match ?l with [] => _ | _ :: _ => _ end] =>
      let x := fresh "b" in let l' := fresh "t" in destruct l as [|x l']
  end; try discriminate H.

Lemma utf8_char_app b0 t r c rest :
  utf8_char b0 t = Some (c, rest) -> utf8_char b0 (t ++ r) = Some (c, rest ++ r).
Proof.
  intro H. char_cases H; injection H as <- <-; simpl; rewrite ?E, ?E0, ?E1, ?E2, ?E3;
  reflexivity.
Qed.

Lemma utf8_char_suffix b0 t c rest :
  utf8_char b0 t = Some (c, rest) -> exists pre, t = pre ++ rest.
Proof.
  intro H. char_cases H; injection H as <- <-.
  - exists []. reflexivity.
  - eexists [_]. reflexivity.
  - eexists [_; _]. reflexivity.
  - eexists [_; _; _]. reflexivity.
Qed.

Lemma utf8_char_snoc_none b0 t x :
  utf8_char b0 t = None -> x < 128 -> utf8_char b0 (t ++ [x]) = None.
Proof.
  intros H Hx.
  assert (Hc : cont x = false) by (unfold cont, in_range; apply andb_false_intro1; apply Z.leb_gt; lia).
  char_cases H; simpl; rewrite ?E, ?E0, ?E1, ?E2, ?E3, ?Hc, ?andb_false_r; try reflexivity.
Qed.

Lemma second_lo_bounds b0 :
  128 <= second_lo b0 /\ (b0 = 224 -> second_lo b0 = 160)
  /\ (b0 = 240 -> second_lo b0 = 144).
Proof.
  unfold second_lo. destruct (Z.eqb_spec b0 224); destruct (Z.eqb_spec b0 240); lia.
Qed.

Lemma utf8_char_ascii b0 t c rest :
  utf8_char b0 t = Some (c, rest) -> c < 128 -> b0 = c /\ rest = t.
Proof.
  intros H Hc. pose proof (second_lo_bounds b0).
  char_cases H; injection H as <- <-; [split; reflexivity| | |];
  unfold cont, in_range in *;
  repeat match goal with
  | E : (_ && _) = true |- _ => apply andb_prop in E; destruct E
  | E : (_ <=? _) = true |- _ => apply Z.leb_le in E
  | E : (_ <? _) = false |- _ => apply Z.ltb_ge in E
  end; lia.
Qed.

Lemma utf8_decode_app : forall q d r, utf8_decode q = Some d ->
  utf8_decode (q ++ r) = option_map (app d) (utf8_decode r).
Proof.
  intro q. induction q as [q IH] using (induction_ltof1 _ (@List.length Z)).
  unfold ltof in IH. intros d r H.
  destruct q as [|b0 t].
  - simpl in H. injection H as <-. simpl. destruct (utf8_decode r); reflexivity.
  - rewrite utf8_decode_cons in H. simpl app. rewrite utf8_decode_cons.
    destruct (utf8_char b0 t) as [[c rest]|] eqn:Ec; [|discriminate].
    rewrite (utf8_char_app _ _ r _ _ Ec).
    destruct (utf8_decode rest) as [e|] eqn:Ee; [|discriminate].
    injection H as <-.
    destruct (utf8_char_suffix _ _ _ _ Ec) as [pre ->].
    rewrite (IH rest ltac:(simpl; rewrite length_app; lia) e r Ee).
    destruct (utf8_decode r); reflexivity.
Qed.

Lemma utf8_decode_snoc_none : forall q x, utf8_decode q = None -> x < 128 ->
  utf8_decode (q ++ [x]) = None.
Proof.
  intro q. induction q as [q IH] using (induction_ltof1 _ (@List.length Z)).
  unfold ltof in IH. intros x H Hx.
  destruct q as [|b0 t]; [discriminate|].
  rewrite utf8_decode_cons in H. simpl app. rewrite utf8_decode_cons.
  destruct (utf8_char b0 t) as [[c rest]|] eqn:Ec.
  - rewrite (utf8_char_app _ _ [x] _ _ Ec).
    destruct (utf8_decode rest) eqn:Ee; [discriminate|].
    destruct (utf8_char_suffix _ _ _ _ Ec) as [pre ->].
    rewrite (IH rest ltac:(simpl; rewrite length_app; lia) x Ee Hx). reflexivity.
  - rewrite (utf8_char_snoc_none _ _ _ Ec Hx). reflexivity.
Qed.

Lemma utf8_decode_nil_inv q : utf8_decode q = Some [] -> q = [].
Proof.
  destruct q as [|b0 t]; [reflexivity|]. rewrite utf8_decode_cons.
  destruct (utf8_char b0 t) as [[c rest]|]; [|discriminate].
  destruct (utf8_decode rest); discriminate.
Qed.

Lemma utf8_decode_snoc_inv : forall q d x, utf8_decode q = Some (d ++ [x]) ->
  x < 128 -> exists q', q = q' ++ [x].
Proof.
  intro q. induction q as [q IH] using (induction_ltof1 _ (@List.length Z)).
  unfold ltof in IH. intros d x H Hx.
  destruct q as [|b0 t].
  - simpl in H. injection H as H. destruct d; discriminate.
  - rewrite utf8_decode_cons in H.
    destruct (utf8_char b0 t) as [[c rest]|] eqn:Ec; [|discriminate].
    destruct (utf8_decode rest) as [e|] eqn:Ee; [|discriminate].
    simpl in H. injection H as H.
    destruct (utf8_char_suffix _ _ _ _ Ec) as [pre Ht].
    destruct d as [|c' d'].
    + simpl in H. injection H as -> ->.
      destruct (utf8_char_ascii _ _ _ _ Ec Hx) as [-> ->].
      rewrite (utf8_decode_nil_inv _ Ee). exists []. reflexivity.
    + simpl in H. injection H as -> He.
      subst t.
      destruct (IH rest ltac:(simpl; rewrite length_app; lia) d' x
                  ltac:(rewrite Ee, He; reflexivity) Hx) as [r' ->].
      exists (b0 :: pre ++ r'). rewrite app_assoc. reflexivity.
Qed.

Lemma utf8_decode_ascii b : forallb is_ascii b = true -> utf8_decode b = Some b.
Proof.
  induction b as [|x b IH]; intro H; [reflexivity|].
  simpl in H. apply andb_prop in H as [Hx Hb].
  unfold is_ascii in Hx. apply andb_prop in Hx as [_ Hx].
  simpl. rewrite Hx, (IH Hb). reflexivity.
Qed.

(* ---------------------------------------------------------------------- *)
(** ** Lists *)

Lemma list_Z_eqb_eq a b : list_Z_eqb a b = true <-> a = b.
Proof.
  revert b; induction a as [|x a IH]; intros [|y b]; simpl;
    try (split; congruence).
  rewrite andb_true_iff, Z.eqb_eq, IH. split.
  - intros [-> ->]; reflexivity.
  - intro H; injection H; auto.
Qed.

Lemma list_Z_eqb_refl a : list_Z_eqb a a = true.
Proof. apply list_Z_eqb_eq; reflexivity. Qed.

Lemma list_Z_eqb_neq a b : a <> b -> list_Z_eqb a b = false.
Proof.
  intro H. destruct (list_Z_eqb a b) eqn:E; [|reflexivity].
  apply list_Z_eqb_eq in E. contradiction.
Qed.

Lemma lastn_snoc {A} k (l : list A) x :
  lastn (S k) (l ++ [x]) = lastn k l ++ [x].
Proof.
  unfold lastn. rewrite length_app, skipn_app. simpl.
  replace (List.length l + 1 - S k - List.length l)%nat with O by lia.
  replace (List.length l + 1 - S k)%nat with (List.length l - k)%nat by lia.
  reflexivity.
Qed.

Lemma lastn_0 {A} (l : list A) : lastn 0 l = [].
Proof. unfold lastn. rewrite Nat.sub_0_r. apply skipn_all. Qed.

Lemma last_opt_snoc {A} (l : list A) x : last_opt (l ++ [x]) = Some x.
Proof. unfold last_opt. rewrite rev_app_distr. reflexivity. Qed.

Lemma firstn_snoc {A} (l : list A) x : firstn (List.length (l ++ [x]) - 1) (l ++ [x]) = l.
Proof.
  rewrite length_app. simpl. replace (List.length l + 1 - 1)%nat with (List.length l) by lia.
  rewrite firstn_app, firstn_all, Nat.sub_diag. simpl. apply app_nil_r.
Qed.

(* ---------------------------------------------------------------------- *)
(** ** Normalization of the commands the class sends *)

(** An ASCII str whose last character is neither CR nor LF gets one LF. *)
Lemma normalize_plain s c :
  forallb is_ascii (s ++ [c]) = true -> c <> LF -> c <> CR ->
  normalize (CStr (s ++ [c])) = Ret (s ++ [c] ++ [LF]).
Proof.
  intros Ha Hlf Hcr. unfold normalize, to_bytes. rewrite Ha. simpl obind.
  unfold decode. rewrite (utf8_decode_ascii _ Ha). simpl obind.
  rewrite (lastn_snoc 1), !list_Z_eqb_neq.
  2: intro E; change lfcr with ([10] ++ [13]) in E.
  3: intro E; change crlf with ([13] ++ [10]) in E.
  2,3: apply app_inj_tail in E; destruct E as [_ E]; unfold LF, CR in *; congruence.
  simpl orb. cbv iota. rewrite (utf8_decode_ascii _ Ha). simpl obind.
  rewrite (lastn_snoc 0), lastn_0, list_Z_eqb_neq.
  2: intro E; injection E; unfold CR in *; congruence.
  rewrite (utf8_decode_ascii _ Ha). simpl obind. rewrite last_opt_snoc.
  unfold LF in Hlf. rewrite (proj2 (Z.eqb_neq c 10) Hlf). simpl.
  rewrite <- app_assoc. reflexivity.
Qed.

Lemma digits_aux_digits fuel : forall n acc, 0 <= n ->
  (forall c, In c acc -> 48 <= c <= 57) ->
  forall c, In c (digits_aux fuel n acc) -> 48 <= c <= 57.
Proof.
  induction fuel as [|f IH]; intros n acc Hn Hacc; simpl; [exact Hacc|].
  assert (Hd : forall c, In c ((48 + n mod 10) :: acc) -> 48 <= c <= 57).
  { intros c [<-|Hc]; [pose proof (Z.mod_pos_bound n 10); lia | auto]. }
  destruct (n <? 10); [exact Hd|].
  apply IH; [apply Z.div_pos; lia | exact Hd].
Qed.

Lemma digits_aux_nonempty fuel : forall n acc, acc <> [] -> digits_aux fuel n acc <> [].
Proof.
  induction fuel as [|f IH]; intros n acc H; simpl; [exact H|].
  destruct (n <? 10); [discriminate | apply IH; discriminate].
Qed.

Lemma py_str_int_digits z : 0 <= z ->
  exists s c, py_str_int z = s ++ [c] /\ 48 <= c <= 57
              /\ forall d, In d (py_str_int z) -> 48 <= d <= 57.
Proof.
  intro Hz. unfold py_str_int.
  replace (z <? 0) with false by (symmetry; apply Z.ltb_ge; lia).
  set (l := digits_aux _ z []).
  assert (Hl : forall d, In d l -> 48 <= d <= 57)
    by (apply digits_aux_digits; [lia | intros _ []]).
  assert (Hne : l <> []).
  { unfold l. simpl. destruct (z <? 10); [discriminate|].
    apply digits_aux_nonempty; discriminate. }
  destruct (exists_last Hne) as [s [c Hsc]].
  exists s, c. split; [exact Hsc|]. split; [|exact Hl].
  apply Hl. rewrite Hsc. apply in_or_app. simpl. auto.
Qed.

Lemma forallb_digits l : (forall d, In d l -> 48 <= d <= 57) -> forallb is_ascii l = true.
Proof.
  intro H. apply forallb_forall. intros d Hd. specialize (H d Hd).
  unfold is_ascii. apply andb_true_intro; split; [apply Z.leb_le | apply Z.ltb_lt]; lia.
Qed.

Lemma py_str_int_ascii z : forallb is_ascii (py_str_int z) = true.
Proof.
  destruct (Z.ltb_spec z 0) as [Hz|Hz].
  - unfold py_str_int. replace (z <? 0) with true by (symmetry; apply Z.ltb_lt; lia).
    change (is_ascii 45 && forallb is_ascii
              (digits_aux (S (Z.to_nat (Z.log2 (- z)))) (- z) []) = true).
    apply andb_true_intro; split; [reflexivity|].
    apply forallb_digits, digits_aux_digits; [lia | intros _ []].
  - destruct (py_str_int_digits z Hz) as (s & c & _ & _ & H).
    apply forallb_digits, H.
Qed.

Lemma py_str_num_ascii n : forallb is_ascii (py_str_num n) = true.
Proof. destruct n as [z|f]; [apply py_str_int_ascii | apply frepr_ascii]. Qed.

(* ---------------------------------------------------------------------- *)
(** ** The command exchange *)

Lemma send_cmd_eq n c s b : normalize c = Ret b ->
  send_cmd n c s =
  (decode (next_read n s),
   set_port (written s ++ [b]) (snd (read_chunk n (incoming s))) (closed s) s).
Proof.
  intro H. unfold send_cmd, bind, lift, ser_write, ser_read, modify, next_read.
  rewrite H. simpl. destruct (read_chunk n (incoming s)); reflexivity.
Qed.

Lemma send_cmd_raise n c s e : normalize c = Raise e -> send_cmd n c s = (Raise e, s).
Proof. intro H. unfold send_cmd, bind, lift. rewrite H. reflexivity. Qed.

Lemma get_setting_set_port k w i c s : get_setting k (set_port w i c s) = get_setting k s.
Proof. destruct k; reflexivity. Qed.

Lemma get_setting_set_setting k v s : get_setting k (set_setting k v s) = v.
Proof. destruct k; reflexivity. Qed.

(** A setter called with HV off and an in-range int sends one command and
    commits on the acknowledgement only. *)
Lemma set_param_eval tok lo hi k z s :
  is_HV_on s = false -> lo <= z <= hi -> 0 <= z -> forallb is_ascii tok = true ->
  set_param tok lo hi k (PInt z) s =
  let s1 := set_port (written s ++ [tok ++ py_str_int z ++ [LF]])
                     (snd (read_chunk 250 (incoming s))) (closed s) s in
  match decode (next_read 250 s) with
  | Ret resp => if list_Z_eqb resp MTI_OK then (Ret true, set_setting k (Some z) s1)
                else (Ret false, s1)
  | Raise e => (Raise e, s1)
  end.
Proof.
  intros Hhv Hr Hz Htok. unfold set_param, bind at 1, get. rewrite Hhv.
  replace ((z <? lo) || (hi <? z)) with false
    by (symmetry; apply orb_false_intro; apply Z.ltb_ge; lia).
  destruct (py_str_int_digits z Hz) as (sd & c & Hsc & Hc & _).
  assert (Hn : normalize (CStr (tok ++ py_str_int z)) = Ret (tok ++ py_str_int z ++ [LF])).
  { rewrite Hsc, app_assoc, normalize_plain; [rewrite <- !app_assoc; reflexivity| |unfold LF; lia|unfold CR; lia].
    rewrite <- app_assoc, <- Hsc, forallb_app, Htok, py_str_int_ascii. reflexivity. }
  unfold bind at 1. rewrite (send_cmd_eq _ _ _ _ Hn).
  destruct (decode (next_read 250 s)) as [resp|e]; [|reflexivity].
  destruct (list_Z_eqb resp MTI_OK); reflexivity.
Qed.

Lemma set_param_rejects tok lo hi k v s :
  is_HV_on s = false ->
  (forall z, v <> PInt z) \/ (exists z, v = PInt z /\ (z < lo \/ hi < z)) ->
  set_param tok lo hi k v s = (Ret false, s).
Proof.
  intros Hhv Hv. unfold set_param, bind, get. rewrite Hhv.
  destruct Hv as [Hv | (z & -> & Hz)].
  - destruct v; try reflexivity. exfalso; apply (Hv z); reflexivity.
  - replace ((z <? lo) || (hi <? z)) with true; [reflexivity|].
    symmetry. apply orb_true_iff. destruct Hz; [left|right]; apply Z.ltb_lt; lia.
Qed.

Lemma set_param_contract tok lo hi k v s :
  is_HV_on s = false -> 0 <= lo -> forallb is_ascii tok = true ->
  setter_contract (set_param tok lo hi k) tok k lo hi v s.
Proof.
  intros Hhv Hlo Htok. unfold setter_contract.
  destruct (set_param tok lo hi k v s) as [o s'] eqn:E. split.
  - intros z -> Hz. rewrite set_param_eval in E by (auto; lia).
    split.
    { destruct (decode (next_read 250 s)) as [t|e];
        [destruct (list_Z_eqb t MTI_OK)|]; injection E as _ <-; destruct k; reflexivity. }
    unfold decode in E. destruct (utf8_decode (next_read 250 s)) as [t|] eqn:Ed.
    + destruct (list_Z_eqb t MTI_OK) eqn:Eok; injection E as <- <-.
      * apply list_Z_eqb_eq in Eok. subst t.
        split; [intros _ | split; [intros t' Ht' Hne; injection Ht'; congruence
                                  | discriminate]].
        split; [reflexivity | apply get_setting_set_setting].
      * split; [intro Ht; injection Ht as ->; rewrite list_Z_eqb_refl in Eok; discriminate|].
        split; [intros _ _ _; split; [reflexivity | apply get_setting_set_port] | discriminate].
    + injection E as <- <-. split; [discriminate|]. split; [discriminate|].
      intros _. split; [reflexivity | apply get_setting_set_port].
  - intro Hv. rewrite set_param_rejects in E by assumption. injection E as <- <-. auto.
Qed.

(* ---------------------------------------------------------------------- *)
(** ** C1: no parameter change while high voltage is on *)

(** C1.  With [is_HV_on] true every parameter setter returns [False] at
    once, for every argument: nothing is written to or read from the port
    and the settings are untouched (the session is returned unchanged). *)
Theorem setters_refused_while_HV_on (v : pyval) (s : session) :
  is_HV_on s = true ->
  set_Vbias v s = (Ret false, s) /\ set_VdifferenceMax v s = (Ret false, s)
  /\ set_HardwareFilterBW v s = (Ret false, s).
Proof.
  intro H. unfold set_Vbias, set_VdifferenceMax, set_HardwareFilterBW, set_param,
    bind, get. rewrite H. repeat split.
Qed.

Lemma setters_refused_while_HV_on_witness :
  is_HV_on (demo_session true (NInt 0) (NInt 0) [MTI_OK]) = true
  /\ set_Vbias (PInt 10) (demo_session true (NInt 0) (NInt 0) [MTI_OK])
     = (Ret false, demo_session true (NInt 0) (NInt 0) [MTI_OK]).
Proof.
  split; [reflexivity|].
  exact (proj1 (setters_refused_while_HV_on (PInt 10)
                  (demo_session true (NInt 0) (NInt 0) [MTI_OK]) eq_refl)).
Defined.

(* ---------------------------------------------------------------------- *)
(** ** C2: high voltage goes on only with all parameters set *)

(** C2.  From HV off, [HV_on] returns [False] and changes nothing when a
    setting is [None]; [is_HV_on] becomes true exactly when all three
    settings are set and the reply decodes to ["MTI-OK\r\n"], and the call
    returns [True] exactly then. *)
Theorem HV_on_needs_all_settings (s : session) :
  is_HV_on s = false ->
  let '(o, s') := HV_on s in
  ((Vbias s = None \/ VdifferenceMax s = None \/ HardwareFilterBW s = None) ->
     o = Ret false /\ s' = s) /\
  (is_HV_on s' = true <->
     Vbias s <> None /\ VdifferenceMax s <> None /\ HardwareFilterBW s <> None
     /\ utf8_decode (next_read 250 s) = Some MTI_OK) /\
  (o = Ret true <-> is_HV_on s' = true).
Proof.
  intro Hhv. unfold HV_on, get_mirror_params, bind, get, ret.
  destruct (Vbias s) as [vb|], (VdifferenceMax s) as [vd|],
           (HardwareFilterBW s) as [hw|];
  cbn [existsb is_none orb];
  try (rewrite Hhv; split; [intros _; split; reflexivity|];
       split; [split; [discriminate | intros (H1 & H2 & H3 & _); congruence]
              | split; discriminate]).
  rewrite (send_cmd_eq 250 (CStr (lit "MTI+EN" ++ [LF])) s (lit "MTI+EN" ++ [LF]) eq_refl).
  unfold decode. destruct (utf8_decode (next_read 250 s)) as [t|] eqn:Ed.
  - destruct (list_Z_eqb t MTI_OK) eqn:Eok.
    + apply list_Z_eqb_eq in Eok. subst t. unfold modify. simpl.
      split; [intros [H|[H|H]]; discriminate|].
      split; [split; [intros _; repeat split; discriminate | reflexivity]
             | split; reflexivity].
    + simpl. rewrite Hhv. split; [intros [H|[H|H]]; discriminate|].
      split; [split; [discriminate|] | split; discriminate].
      intros (_ & _ & _ & Ht). injection Ht as ->.
      rewrite list_Z_eqb_refl in Eok. discriminate.
  - simpl. rewrite Hhv. split; [intros [H|[H|H]]; discriminate|].
    split; [split; [discriminate | intros (_ & _ & _ & Ht); discriminate]
           | split; discriminate].
Qed.

Lemma HV_on_needs_all_settings_witness :
  is_HV_on (demo_session false (NInt 0) (NInt 0) [MTI_OK]) = false
  /\ let '(o, s') := HV_on (demo_session false (NInt 0) (NInt 0) [MTI_OK]) in
     ((Vbias (demo_session false (NInt 0) (NInt 0) [MTI_OK]) = None
       \/ VdifferenceMax (demo_session false (NInt 0) (NInt 0) [MTI_OK]) = None
       \/ HardwareFilterBW (demo_session false (NInt 0) (NInt 0) [MTI_OK]) = None) ->
      o = Ret false /\ s' = demo_session false (NInt 0) (NInt 0) [MTI_OK]) /\
     (is_HV_on s' = true <->
      Vbias (demo_session false (NInt 0) (NInt 0) [MTI_OK]) <> None
      /\ VdifferenceMax (demo_session false (NInt 0) (NInt 0) [MTI_OK]) <> None
      /\ HardwareFilterBW (demo_session false (NInt 0) (NInt 0) [MTI_OK]) <> None
      /\ utf8_decode (next_read 250 (demo_session false (NInt 0) (NInt 0) [MTI_OK]))
         = Some MTI_OK) /\
     (o = Ret true <-> is_HV_on s' = true).
Proof.
  split; [reflexivity|].
  exact (HV_on_needs_all_settings (demo_session false (NInt 0) (NInt 0) [MTI_OK]) eq_refl).
Defined.

(* ---------------------------------------------------------------------- *)
(** ** C3: parameter ranges and commit on acknowledgement *)

(** C3 (amended).  With HV off, each setter sends an in-range int as its
    command ([tok ++ str(z) ++ "\n"] is appended to the write log) and commits it when
    the reply decodes to ["MTI-OK\r\n"], returns [False] with the setting
    unchanged on any other decodable reply, raises [UnicodeDecodeError]
    with the setting unchanged on a reply that is not UTF-8, and refuses a
    non-int or out-of-range argument without touching the session.  Ranges:
    Vbias [0,100], VdifferenceMax [0,200], HardwareFilterBW [50,15000]. *)
Theorem setters_commit_only_on_ok (v : pyval) (s : session) :
  is_HV_on s = false ->
  setter_contract set_Vbias (lit "MTI+VB ") SVbias 0 100 v s
  /\ setter_contract set_VdifferenceMax (lit "MTI+VD ") SVdifferenceMax 0 200 v s
  /\ setter_contract set_HardwareFilterBW (lit "MTI+BW ") SHardwareFilterBW 50 15000 v s.
Proof.
  intro H. repeat split; apply set_param_contract; auto; lia.
Qed.

Lemma setters_commit_only_on_ok_witness :
  is_HV_on (demo_session false (NInt 0) (NInt 0) [MTI_OK]) = false
  /\ setter_contract set_Vbias (lit "MTI+VB ") SVbias 0 100 (PInt 10)
       (demo_session false (NInt 0) (NInt 0) [MTI_OK]).
Proof.
  split; [reflexivity|].
  exact (proj1 (setters_commit_only_on_ok (PInt 10)
                  (demo_session false (NInt 0) (NInt 0) [MTI_OK]) eq_refl)).
Defined.

(** C3 counterexample: HV off, [set_Vbias(10)], the board answers the
    single byte 0xFF.  [_send_cmd] raises [UnicodeDecodeError] in
    [ser.read(250).decode()]; the claim says the call returns [False]. *)
Lemma set_Vbias_undecodable_reply :
  fst (set_Vbias (PInt 10) (demo_session false (NInt 0) (NInt 0) [[255]]))
  = Raise UnicodeDecodeError.
Proof. vm_compute. reflexivity. Qed.

(* ---------------------------------------------------------------------- *)
(** ** C5: mirror position *)

Lemma py_lt_iff a b : py_lt a b = true <-> (a < b)%Q.
Proof.
  unfold py_lt. rewrite negb_true_iff. split.
  - intro H. apply Qnot_le_lt. intro Hle. apply Qle_bool_iff in Hle. congruence.
  - intro H. destruct (Qle_bool b a) eqn:E; [|reflexivity].
    apply Qle_bool_iff in E. exfalso. apply (Qlt_not_le _ _ H E).
Qed.

Lemma py_lt_false a b : (b <= a)%Q -> py_lt a b = false.
Proof.
  intro H. destruct (py_lt a b) eqn:E; [|reflexivity].
  apply py_lt_iff in E. exfalso. apply (Qlt_not_le _ _ E H).
Qed.

Lemma normalize_position x y :
  normalize (CStr (lit "MTI+GT " ++ py_str_num x ++ lit " " ++ py_str_num y ++ lit " 0"))
  = Ret ((lit "MTI+GT " ++ py_str_num x ++ lit " " ++ py_str_num y ++ lit " 0") ++ [LF]).
Proof.
  change (lit " 0") with ([32] ++ [48]).
  rewrite !app_assoc, normalize_plain; [rewrite <- !app_assoc; reflexivity| |
    unfold LF; lia | unfold CR; lia].
  rewrite !forallb_app, !py_str_num_ascii. reflexivity.
Qed.

(** C5.  [set_mirror_position(x, y)] returns [False] and leaves the session
    untouched when an axis is below -1 or above 1; inside [-1,1] it sends
    the command, and on a reply decoding to ["MTI-OK\r\n"] returns [True]
    with the cached position (x, y); on any other reply the position is
    unchanged and the call returns [None] (or raises on an undecodable
    reply), never [True]. *)
Theorem set_mirror_position_bounds (x y : pynum) (s : session) :
  let '(o, s') := set_mirror_position x y s in
  (((num_val x < -1)%Q \/ (num_val y < -1)%Q \/ (1 < num_val x)%Q
    \/ (1 < num_val y)%Q) -> o = Ret (Some false) /\ s' = s) /\
  ((-1 <= num_val x <= 1)%Q -> (-1 <= num_val y <= 1)%Q ->
     (utf8_decode (next_read 250 s) = Some MTI_OK ->
        o = Ret (Some true) /\ pos_x s' = x /\ pos_y s' = y) /\
     (utf8_decode (next_read 250 s) <> Some MTI_OK ->
        (o = Ret None \/ o = Raise UnicodeDecodeError) /\ o <> Ret (Some true)
        /\ pos_x s' = pos_x s /\ pos_y s' = pos_y s)).
Proof.
  destruct (set_mirror_position x y s) as [o s'] eqn:E. split.
  - intro Hout. unfold set_mirror_position in E.
    replace (py_lt (num_val x) (-1) || py_lt (num_val y) (-1)
             || py_lt 1 (num_val x) || py_lt 1 (num_val y)) with true in E.
    + injection E as <- <-. auto.
    + symmetry. rewrite !orb_true_iff, !py_lt_iff. tauto.
  - intros [Hx1 Hx2] [Hy1 Hy2]. unfold set_mirror_position in E.
    rewrite (py_lt_false _ _ Hx1), (py_lt_false _ _ Hy1), (py_lt_false _ _ Hx2),
      (py_lt_false _ _ Hy2) in E. cbn [orb] in E.
    unfold bind at 1 in E. rewrite (send_cmd_eq _ _ _ _ (normalize_position x y)) in E.
    unfold decode in E. destruct (utf8_decode (next_read 250 s)) as [t|] eqn:Ed.
    + destruct (list_Z_eqb t MTI_OK) eqn:Eok.
      * apply list_Z_eqb_eq in Eok. subst t. injection E as <- <-.
        split; [intros _; repeat split | intro Hne; congruence].
      * injection E as <- <-.
        split; [intro Ht; injection Ht as ->; rewrite list_Z_eqb_refl in Eok; discriminate|].
        intros _. repeat split; auto. discriminate.
    + injection E as <- <-. split; [discriminate|].
      intros _. repeat split; auto. discriminate.
Qed.

(* ---------------------------------------------------------------------- *)
(** ** C6: set_mirror_params *)

(** C6 (amended).  [set_mirror_params] runs [set_Vbias], then
    [set_VdifferenceMax], then [set_HardwareFilterBW], going on after a
    setter returns [False], and returns the conjunction of the three
    results; an exception raised by a setter (an undecodable reply)
    propagates at once and the later setters do not run. *)
Theorem set_mirror_params_runs_all (a b c : pyval) (s : session) :
  set_mirror_params a b c s =
  match set_Vbias a s with
  | (Raise e, s1) => (Raise e, s1)
  | (Ret r1, s1) =>
    match set_VdifferenceMax b s1 with
    | (Raise e, s2) => (Raise e, s2)
    | (Ret r2, s2) =>
      match set_HardwareFilterBW c s2 with
      | (Raise e, s3) => (Raise e, s3)
      | (Ret r3, s3) => (Ret (r1 && r2 && r3), s3)
      end
    end
  end.
Proof.
  unfold set_mirror_params, bind, ret.
  destruct (set_Vbias a s) as [[r1|e] s1]; [|reflexivity].
  destruct (set_VdifferenceMax b s1) as [[r2|e] s2]; [|reflexivity].
  destruct (set_HardwareFilterBW c s2) as [[r3|e] s3]; [|reflexivity].
  destruct r1, r2, r3; reflexivity.
Qed.

(** C6 counterexample: HV off, [set_mirror_params(10, 10, 100)], the board
    answers 0xFF to the first command.  [set_Vbias] raises and neither
    [set_VdifferenceMax] nor [set_HardwareFilterBW] sends anything. *)
Lemma set_mirror_params_stops_on_exception :
  let '(o, s') := set_mirror_params (PInt 10) (PInt 10) (PInt 100)
                    (demo_session false (NInt 0) (NInt 0) [[255]; MTI_OK; MTI_OK]) in
  o = Raise UnicodeDecodeError /\ written s' = [lit "MTI+VB 10" ++ [LF]].
Proof. vm_compute. split; reflexivity. Qed.

(* ---------------------------------------------------------------------- *)
(** ** C4: the exit sequence *)

Lemma send_cmd_closed n c s : closed (snd (send_cmd n c s)) = closed s.
Proof.
  destruct (normalize c) as [b|e] eqn:E.
  - rewrite (send_cmd_eq _ _ _ _ E). reflexivity.
  - rewrite (send_cmd_raise _ _ _ _ E). reflexivity.
Qed.

Lemma set_mirror_position_closed x y s :
  closed (snd (set_mirror_position x y s)) = closed s.
Proof.
  unfold set_mirror_position.
  destruct (_ || _ || _ || _); [reflexivity|].
  unfold bind at 1.
  match goal with |- context [send_cmd 250 ?c s] =>
    pose proof (send_cmd_closed 250 c s) as Hc;
    destruct (send_cmd 250 c s) as [[t|e] s1] end;
  simpl in Hc |- *; [|exact Hc].
  destruct (list_Z_eqb t MTI_OK); exact Hc.
Qed.

Lemma HV_off_closed s : closed (snd (HV_off s)) = closed s.
Proof.
  unfold HV_off, bind at 1.
  match goal with |- context [send_cmd 250 ?c s] =>
    pose proof (send_cmd_closed 250 c s) as Hc;
    destruct (send_cmd 250 c s) as [[t|e] s1] end;
  simpl in Hc |- *; [|exact Hc].
  destruct (list_Z_eqb t MTI_OK); exact Hc.
Qed.

(** C4 (amended).  [exit_safely] re-centers the mirror when the cached
    position is not (0,0), then turns HV off when it is on, then logs out;
    a [False]/[None] result of the first two steps does not stop it, only
    an exception does (a reply that is not UTF-8), and then the logout is
    never sent.  Neither of the first two steps closes the port.  The
    logout writes ["MTI+EX\n"] and closes the port exactly when the line
    read back is ["MTI-Device Exit Command Mode\r\n"], returning [True]
    exactly then; on any other line the port stays open, and the call
    raises [UnicodeDecodeError] when [verbose] is set and the line is not
    UTF-8, and returns [False] otherwise.  A reply that is not UTF-8 to the
    re-center command (mirror off (0,0)) or to the HV-off command (HV on)
    raises [UnicodeDecodeError] in that step. *)
Theorem exit_safely_logout_decides (verbose : bool) (s : session) :
  exit_safely verbose s =
    match exit_recenter s with
    | (Raise e, s1) => (Raise e, s1)
    | (Ret _, s1) =>
      match exit_HV_off s1 with
      | (Raise e, s2) => (Raise e, s2)
      | (Ret _, s2) => exit_logout verbose s2
      end
    end
  /\ exit_recenter s =
     (if negb (Qeq_bool (num_val (pos_x s)) 0) || negb (Qeq_bool (num_val (pos_y s)) 0)
      then match set_mirror_position (NInt 0) (NInt 0) s with
           | (Ret _, s1) => (Ret tt, s1)
           | (Raise e, s1) => (Raise e, s1)
           end
      else (Ret tt, s))
  /\ closed (snd (exit_recenter s)) = closed s
  /\ (forall s1, exit_HV_off s1 =
        if is_HV_on s1
        then match HV_off s1 with
             | (Ret _, s2) => (Ret tt, s2)
             | (Raise e, s2) => (Raise e, s2)
             end
        else (Ret tt, s1))
  /\ (forall s1, closed (snd (exit_HV_off s1)) = closed s1)
  /\ (forall s2, closed s2 = false ->
        let '(o, s3) := exit_logout verbose s2 in
        written s3 = written s2 ++ [lit "MTI+EX" ++ [LF]] /\
        (closed s3 = true <-> next_line s2 = MTI_Exit_Ack) /\
        (o = Ret true <-> next_line s2 = MTI_Exit_Ack) /\
        (next_line s2 <> MTI_Exit_Ack ->
           (verbose = true -> utf8_decode (next_line s2) = None ->
              o = Raise UnicodeDecodeError) /\
           (verbose = false \/ utf8_decode (next_line s2) <> None -> o = Ret false)))
  /\ (~ ((num_val (pos_x s) == 0)%Q /\ (num_val (pos_y s) == 0)%Q) ->
      utf8_decode (next_read 250 s) = None ->
      fst (exit_recenter s) = Raise UnicodeDecodeError)
  /\ (forall s1, is_HV_on s1 = true -> utf8_decode (next_read 250 s1) = None ->
      fst (exit_HV_off s1) = Raise UnicodeDecodeError).
Proof.
  split.
  { unfold exit_safely, bind at 1 2.
    destruct (exit_recenter s) as [[[]|e] s1]; [|reflexivity].
    destruct (exit_HV_off s1) as [[[]|e] s2]; reflexivity. }
  assert (Hrc : exit_recenter s =
     (if negb (Qeq_bool (num_val (pos_x s)) 0) || negb (Qeq_bool (num_val (pos_y s)) 0)
      then match set_mirror_position (NInt 0) (NInt 0) s with
           | (Ret _, s1) => (Ret tt, s1)
           | (Raise e, s1) => (Raise e, s1)
           end
      else (Ret tt, s))).
  { unfold exit_recenter, get_mirror_position, bind, get, ret. cbv beta iota.
    destruct (_ || _); [|reflexivity].
    destruct (set_mirror_position (NInt 0) (NInt 0) s) as [[]] ; reflexivity. }
  split; [exact Hrc|].
  split.
  { rewrite Hrc. destruct (_ || _); [|reflexivity].
    rewrite <- (set_mirror_position_closed (NInt 0) (NInt 0) s).
    destruct (set_mirror_position (NInt 0) (NInt 0) s) as [[]]; reflexivity. }
  assert (Hhv : forall s1, exit_HV_off s1 =
        if is_HV_on s1
        then match HV_off s1 with
             | (Ret _, s2) => (Ret tt, s2)
             | (Raise e, s2) => (Raise e, s2)
             end
        else (Ret tt, s1)).
  { intro s1. unfold exit_HV_off, bind, get, ret. cbv beta iota.
    destruct (is_HV_on s1); [|reflexivity].
    destruct (HV_off s1) as [[]]; reflexivity. }
  split; [exact Hhv|].
  split.
  { intro s1. rewrite Hhv. destruct (is_HV_on s1); [|reflexivity].
    rewrite <- (HV_off_closed s1). destruct (HV_off s1) as [[]]; reflexivity. }
  split.
  { intros s2 Hcl.
    unfold exit_logout, next_line, bind, ser_write, ser_readline, ser_close, modify,
      lift, ret.
    simpl. destruct (readline_chunk (incoming s2)) as [line rest]. simpl.
    destruct (list_Z_eqb line MTI_Exit_Ack) eqn:Eq.
    - apply list_Z_eqb_eq in Eq. subst line.
      destruct verbose; simpl; repeat split; auto; contradiction.
    - assert (Hl : line <> MTI_Exit_Ack)
        by (intro Hl; rewrite Hl, list_Z_eqb_refl in Eq; discriminate).
      destruct verbose; [unfold decode; destruct (utf8_decode line) eqn:Ed|];
        simpl; rewrite ?Hcl; repeat split; try discriminate; try contradiction; auto;
        intros [Hv|Hv]; try discriminate; try contradiction; try congruence. }
  split.
  { intros Hpos Hd. rewrite Hrc.
    replace (negb (Qeq_bool (num_val (pos_x s)) 0) || negb (Qeq_bool (num_val (pos_y s)) 0))
      with true.
    2: { symmetry. destruct (Qeq_bool (num_val (pos_x s)) 0) eqn:Ex;
         destruct (Qeq_bool (num_val (pos_y s)) 0) eqn:Ey; try reflexivity.
         exfalso. apply Hpos. split; apply Qeq_bool_iff; assumption. }
    unfold set_mirror_position.
    replace (py_lt (num_val (NInt 0)) (-1) || py_lt (num_val (NInt 0)) (-1)
             || py_lt 1 (num_val (NInt 0)) || py_lt 1 (num_val (NInt 0))) with false
      by reflexivity.
    unfold bind at 1. rewrite (send_cmd_eq _ _ _ _ (normalize_position (NInt 0) (NInt 0))).
    unfold decode. rewrite Hd. reflexivity. }
  intros s1 Hon Hd. rewrite Hhv, Hon.
  unfold HV_off, bind at 1.
  rewrite (send_cmd_eq 250 (CStr (lit "MTI+DI" ++ [LF])) s1 (lit "MTI+DI" ++ [LF]) eq_refl).
  unfold decode. rewrite Hd. reflexivity.
Qed.

(** C4 counterexample: mirror cached at (1, 0), HV off, the board answers
    0xFF to the re-center command and has the exit acknowledgement queued.
    [exit_safely] raises in the re-center step: no logout is sent and the
    port stays open. *)
Lemma exit_safely_aborts_on_undecodable_reply :
  let '(o, s') := exit_safely false
                    (demo_session false (NInt 1) (NInt 0) [[255]; MTI_Exit_Ack]) in
  o = Raise UnicodeDecodeError /\ closed s' = false
  /\ written s' = [lit "MTI+GT 0 0 0" ++ [LF]].
Proof. vm_compute. repeat split. Qed.

(* ---------------------------------------------------------------------- *)
(** ** C7, C8, C10: normalization in [_send_cmd] *)

Lemma is_normalized_shape p : is_normalized p = true ->
  exists q, p = q ++ [LF] /\ forall q', q <> q' ++ [CR].
Proof.
  unfold is_normalized. intro H.
  destruct (rev p) as [|x r] eqn:Er; [discriminate|].
  apply andb_prop in H as [Hx Hr]. apply Z.eqb_eq in Hx. subst x.
  exists (rev r). split.
  - rewrite <- (rev_involutive p), Er. reflexivity.
  - intros q' Hq. apply (f_equal (@rev Z)) in Hq.
    rewrite rev_involutive, rev_app_distr in Hq. simpl in Hq. subst r.
    discriminate.
Qed.

Lemma lastn_1_cr d : lastn 1 d = [CR] -> exists d', d = d' ++ [CR].
Proof.
  destruct (list_eq_dec Z.eq_dec d []) as [->|Hne]; [discriminate|].
  destruct (exists_last Hne) as [d' [c ->]].
  rewrite (lastn_snoc 0), lastn_0. simpl. intro H. injection H as ->. eauto.
Qed.

(** C7 (amended).  A payload that already ends with LF not preceded by CR
    comes out of the normalization unchanged when it decodes as UTF-8
    (a str payload must be ASCII for [bytes(cmd, 'ascii')] to succeed); a
    bytes payload that is not UTF-8 makes it raise [UnicodeDecodeError]. *)
Theorem normalize_keeps_normalized (c : cmd_arg) (p : bytes) :
  to_bytes c = Ret p -> is_normalized p = true ->
  (utf8_decode p <> None -> normalize c = Ret p)
  /\ (utf8_decode p = None -> normalize c = Raise UnicodeDecodeError).
Proof.
  intros Hc Hn. split.
  - intro Hv. destruct (is_normalized_shape p Hn) as (q & -> & Hq).
    destruct (utf8_decode q) as [d|] eqn:Ed.
    2: { exfalso. apply Hv. apply utf8_decode_snoc_none; [exact Ed | unfold LF; lia]. }
    assert (Hp : utf8_decode (q ++ [LF]) = Some (d ++ [LF]))
      by (rewrite (utf8_decode_app _ _ _ Ed); reflexivity).
    assert (Hd : forall d', d <> d' ++ [CR]).
    { intros d' E. subst d.
      destruct (utf8_decode_snoc_inv _ _ _ Ed ltac:(unfold CR; lia)) as [q' Hq'].
      exact (Hq q' Hq'). }
    unfold normalize. rewrite Hc. simpl obind. unfold decode. rewrite Hp. simpl obind.
    rewrite (lastn_snoc 1 d LF), !list_Z_eqb_neq.
    2: { intro E. change lfcr with ([10] ++ [13]) in E.
         apply app_inj_tail in E. destruct E as [_ E]. unfold LF in E. discriminate. }
    2: { intro E. change crlf with ([13] ++ [10]) in E.
         apply app_inj_tail in E. destruct E as [E _].
         destruct (lastn_1_cr d E) as [d' ->]. exact (Hd d' eq_refl). }
    simpl orb. cbv iota. rewrite Hp. simpl obind.
    rewrite (lastn_snoc 0), lastn_0, list_Z_eqb_neq by discriminate.
    rewrite Hp. simpl obind. rewrite last_opt_snoc. reflexivity.
  - intro Hv. unfold normalize. rewrite Hc. simpl obind. unfold decode. rewrite Hv.
    reflexivity.
Qed.

Lemma normalize_keeps_normalized_witness :
  to_bytes (CStr (lit "MTI+EN" ++ [LF])) = Ret (lit "MTI+EN" ++ [LF])
  /\ is_normalized (lit "MTI+EN" ++ [LF]) = true
  /\ normalize (CStr (lit "MTI+EN" ++ [LF])) = Ret (lit "MTI+EN" ++ [LF]).
Proof.
  split; [reflexivity|]. split; [reflexivity|].
  apply (proj1 (normalize_keeps_normalized (CStr (lit "MTI+EN" ++ [LF]))
                  (lit "MTI+EN" ++ [LF]) eq_refl eq_refl)).
  discriminate.
Defined.

(** C7 counterexample: the bytes payload [b'\xff\n'] ends with LF and has
    no CR before it, yet [cmd.decode()] on line 76 raises. *)
Lemma normalize_undecodable_payload :
  is_normalized [255; LF] = true
  /\ normalize (CBytes [255; LF]) = Raise UnicodeDecodeError.
Proof. split; reflexivity. Qed.

(** C8.  ["MTI+VB 10\r\n"] and ["MTI+VB 10"] both normalize to
    ["MTI+VB 10\n"], given as a str or as bytes. *)
Theorem normalize_examples :
  normalize (CStr (lit "MTI+VB 10" ++ [CR; LF])) = Ret (lit "MTI+VB 10" ++ [LF])
  /\ normalize (CStr (lit "MTI+VB 10")) = Ret (lit "MTI+VB 10" ++ [LF])
  /\ normalize (CBytes (lit "MTI+VB 10" ++ [CR; LF])) = Ret (lit "MTI+VB 10" ++ [LF])
  /\ normalize (CBytes (lit "MTI+VB 10")) = Ret (lit "MTI+VB 10" ++ [LF]).
Proof. repeat split; reflexivity. Qed.

(** C10.  The normalization is partial: an empty payload, or one made of
    CR LF or LF CR only, is stripped to nothing and [cmd.decode()[-1]]
    raises IndexError; [_send_cmd] then raises before writing or reading
    anything. *)
Theorem send_cmd_index_error (n : nat) (s : session) :
  normalize (CStr []) = Raise IndexError
  /\ normalize (CBytes []) = Raise IndexError
  /\ normalize (CStr [CR; LF]) = Raise IndexError
  /\ normalize (CStr [LF; CR]) = Raise IndexError
  /\ normalize (CBytes [CR; LF]) = Raise IndexError
  /\ send_cmd n (CStr []) s = (Raise IndexError, s)
  /\ send_cmd n (CStr [CR; LF]) s = (Raise IndexError, s)
  /\ send_cmd n (CStr [LF; CR]) s = (Raise IndexError, s).
Proof.
  repeat split; try reflexivity; apply send_cmd_raise; reflexivity.
Qed.

(* ---------------------------------------------------------------------- *)
(** ** C9: sign-on in [__init__] *)

(** C9 (amended).  [__init__] sends ["$MTI$\n"] and reads one line.  An
    empty line prints the "no MEMS driver found" help and the object is
    built all the same (no exception, port open, HV off); the
    ["MTI-ERR InvalidCommand\r\n"] line is accepted silently; any other
    non-empty line is accepted, echoed when [verbose], except that with
    [verbose] a line that is not UTF-8 makes the constructor raise
    [UnicodeDecodeError]. *)
Theorem sign_on_outcomes (verbose : bool) (vb vd hw : option Z) (x y : pynum)
  (r : list bytes) :
  let line := next_line (fresh_session vb vd hw x y r) in
  let '(o, s) := MEMS_device verbose vb vd hw x y r in
  written s = [lit "$MTI$" ++ [LF]] /\ closed s = false /\ is_HV_on s = false /\
  (line = [] -> o = Ret tt /\ console s = no_device_msg) /\
  (line = MTI_ERR_InvalidCommand -> o = Ret tt /\ console s = []) /\
  (line <> [] -> line <> MTI_ERR_InvalidCommand ->
     (verbose = false -> o = Ret tt /\ console s = []) /\
     (forall d, verbose = true -> utf8_decode line = Some d ->
        o = Ret tt /\ console s = [d]) /\
     (verbose = true -> utf8_decode line = None -> o = Raise UnicodeDecodeError)).
Proof.
  unfold MEMS_device, sign_on, fresh_session, next_line, bind, ser_write,
    ser_readline, modify, lift, ret, print. simpl.
  destruct (readline_chunk r) as [line rest]. simpl.
  destruct (list_Z_eqb line []) eqn:E0.
  - apply list_Z_eqb_eq in E0. subst line. simpl.
    repeat split; try discriminate; try contradiction.
  - assert (H0 : line <> []) by (intro H; subst; discriminate).
    destruct (list_Z_eqb line MTI_ERR_InvalidCommand) eqn:E1.
    + apply list_Z_eqb_eq in E1. subst line.
      destruct verbose; simpl; repeat split; try discriminate; try contradiction.
    + assert (H1 : line <> MTI_ERR_InvalidCommand)
        by (intro H; subst; rewrite list_Z_eqb_refl in E1; discriminate).
      destruct verbose; simpl.
      * unfold decode. destruct (utf8_decode line) as [d|] eqn:Ed; simpl;
          repeat split; try discriminate; try contradiction;
          repeat split; intros; try discriminate; try contradiction; congruence.
      * repeat split; try discriminate; try contradiction.
Qed.

(** C9 counterexample: with [verbose] the board answers the sign-on with
    the line [b'\xff\n']; [print(resp.decode())] on line 51 raises, so no
    object is built. *)
Lemma sign_on_undecodable_reply :
  fst (MEMS_device true None None None (NInt 0) (NInt 0) [[255; LF]])
  = Raise UnicodeDecodeError.
Proof. vm_compute. reflexivity. Qed.

(* ====================================================================== *)
(** * Further properties of the class *)

(* ---------------------------------------------------------------------- *)
(** ** The shape of a normalized command *)

Lemma last_opt_inv {A} (l : list A) x : last_opt l = Some x -> exists l', l = l' ++ [x].
Proof.
  unfold last_opt. intro H. destruct (rev l) as [|y r] eqn:E; [discriminate|].
  injection H as ->. exists (rev r).
  rewrite <- (rev_involutive l), E. reflexivity.
Qed.

Lemma firstn_drop {A} n k (p : list A) : (k <= List.length p)%nat ->
  firstn (List.length (firstn k p) - n) (firstn k p) = firstn (k - n) p.
Proof.
  intro Hk. rewrite firstn_length_le by exact Hk.
  rewrite firstn_firstn, Nat.min_l by lia. reflexivity.
Qed.

Lemma normalize_shape_gen (p b : bytes) :
  (let* d := decode p in
   let b1 := if list_Z_eqb (lastn 2 d) crlf || list_Z_eqb (lastn 2 d) lfcr
             then firstn (List.length p - 2) p else p in
   let* d1 := decode b1 in
   let b2 := if list_Z_eqb (lastn 1 d1) [13]
             then firstn (List.length b1 - 1) b1 else b1 in
   let* d2 := decode b2 in
   match last_opt d2 with
   | None => Raise IndexError
   | Some ch => if negb (ch =? 10) then Ret (b2 ++ [10]) else Ret b2
   end) = Ret b ->
  exists k, (List.length p - 3 <= k <= List.length p)%nat
            /\ (b = firstn k p \/ b = firstn k p ++ [LF]) /\ ends_with_LF b.
Proof.
  intro H. destruct (decode p) as [d|e]; [simpl in H|discriminate].
  assert (Hb1 : exists k1, (List.length p - 2 <= k1 <= List.length p)%nat /\
     (if list_Z_eqb (lastn 2 d) crlf || list_Z_eqb (lastn 2 d) lfcr
      then firstn (List.length p - 2) p else p) = firstn k1 p).
  { destruct (_ || _).
    - exists (List.length p - 2)%nat. split; [lia | reflexivity].
    - exists (List.length p). split; [lia | symmetry; apply firstn_all]. }
  destruct Hb1 as (k1 & Hk1 & Hb1). rewrite Hb1 in H.
  destruct (decode (firstn k1 p)) as [d1|e]; [simpl in H|discriminate].
  assert (Hb2 : exists k2, (List.length p - 3 <= k2 <= List.length p)%nat /\
     (if list_Z_eqb (lastn 1 d1) [13]
      then firstn (List.length (firstn k1 p) - 1) (firstn k1 p) else firstn k1 p)
     = firstn k2 p).
  { destruct (list_Z_eqb _ _).
    - exists (k1 - 1)%nat. split; [lia | apply firstn_drop; lia].
    - exists k1. split; [lia | reflexivity]. }
  destruct Hb2 as (k2 & Hk2 & Hb2). rewrite Hb2 in H.
  destruct (decode (firstn k2 p)) as [d2|e] eqn:E2; [simpl in H|discriminate].
  exists k2. split; [exact Hk2|].
  destruct (last_opt d2) as [ch|] eqn:El; [|discriminate].
  destruct (Z.eqb_spec ch 10) as [->|Hne]; simpl in H; injection H as <-.
  - split; [left; reflexivity|].
    destruct (last_opt_inv _ _ El) as [d' ->].
    unfold decode in E2. destruct (utf8_decode (firstn k2 p)) eqn:Eu; [|discriminate].
    injection E2 as ->. destruct (utf8_decode_snoc_inv _ _ _ Eu ltac:(lia)) as [q ->].
    exists q. reflexivity.
  - split; [right; reflexivity|]. exists (firstn k2 p). reflexivity.
Qed.

Lemma normalize_shape (c : cmd_arg) (p b : bytes) :
  to_bytes c = Ret p -> normalize c = Ret b ->
  exists k, (List.length p - 3 <= k <= List.length p)%nat
            /\ (b = firstn k p \/ b = firstn k p ++ [LF]) /\ ends_with_LF b.
Proof.
  intros Hp H. unfold normalize in H. rewrite Hp in H. simpl obind in H.
  exact (normalize_shape_gen p b H).
Qed.

Lemma normalize_ends_LF c b : normalize c = Ret b -> ends_with_LF b.
Proof.
  intro H. destruct (to_bytes c) as [p|e] eqn:Ep.
  - destruct (normalize_shape c p b Ep H) as (_ & _ & _ & Hl). exact Hl.
  - unfold normalize in H. rewrite Ep in H. discriminate.
Qed.

(* ---------------------------------------------------------------------- *)
(** ** Frame properties *)

Section Preserve.
Variable R : session -> session -> Prop.
Context {R_pre : PreOrder R}.

Lemma preserves_ret {A} (a : A) : preserves R (ret a).
Proof. intro s. reflexivity. Qed.

Lemma preserves_get : preserves R get.
Proof. intro s. reflexivity. Qed.

Lemma preserves_lift {A} (o : outcome A) : preserves R (lift o).
Proof. intro s. reflexivity. Qed.

Lemma preserves_modify f : (forall s, R s (f s)) -> preserves R (modify f).
Proof. intros H s. apply H. Qed.

Lemma preserves_bind {A B} (m : M A) (k : A -> M B) :
  preserves R m -> (forall a, preserves R (k a)) -> preserves R (bind m k).
Proof.
  intros Hm Hk s. specialize (Hm s). unfold bind.
  destruct (m s) as [[a|e] s1]; simpl in *; [|exact Hm].
  transitivity s1; [exact Hm | apply Hk].
Qed.

Lemma preserves_print_all l : (forall s t, R s (add_console t s)) ->
  preserves R (print_all l).
Proof.
  intro H. induction l as [|t l IH]; simpl;
    [apply preserves_ret | apply preserves_bind; [apply preserves_modify; intro; apply H | intros _; exact IH]].
Qed.

(** The port operations append commands that end with LF and consume
    replies; nothing else. *)
Hypothesis R_port : forall s w i, Forall ends_with_LF w ->
  R s (set_port (written s ++ w) i (closed s) s).

Lemma R_port_nil s i : R s (set_port (written s) i (closed s) s).
Proof.
  pose proof (R_port s [] i (Forall_nil _)) as H. rewrite app_nil_r in H. exact H.
Qed.

Lemma preserves_ser_write b : ends_with_LF b -> preserves R (ser_write b).
Proof. intros Hb s. apply R_port. repeat constructor. exact Hb. Qed.

Lemma preserves_ser_read n : preserves R (ser_read n).
Proof.
  intro s. unfold ser_read. destruct (read_chunk n (incoming s)). apply R_port_nil.
Qed.

Lemma preserves_ser_readline : preserves R ser_readline.
Proof.
  intro s. unfold ser_readline. destruct (readline_chunk (incoming s)). apply R_port_nil.
Qed.

Lemma preserves_send_cmd n c : preserves R (send_cmd n c).
Proof.
  intro s. destruct (normalize c) as [b|e] eqn:E.
  - rewrite (send_cmd_eq _ _ _ _ E). apply R_port.
    repeat constructor. exact (normalize_ends_LF _ _ E).
  - rewrite (send_cmd_raise _ _ _ _ E). reflexivity.
Qed.
End Preserve.

Ltac frame :=
  repeat match goal with
  | |- PreOrder _ => exact _
  | |- preserves _ (bind _ _) => apply preserves_bind; [..|intros ?]
  | |- preserves _ (ret _) => apply preserves_ret
  | |- preserves _ get => apply preserves_get
  | |- preserves _ (lift _) => apply preserves_lift
  | |- preserves _ (send_cmd _ _) => apply preserves_send_cmd
  | |- preserves _ (print_all _) => apply preserves_print_all; [..|intros ?s ?t]
  | |- preserves _ (print _) => apply preserves_modify; intros ?s
  | |- preserves _ (modify _) => apply preserves_modify; intros ?s
  | |- preserves _ (ser_write _) => apply preserves_ser_write
  | |- preserves _ ser_readline => apply preserves_ser_readline
  | |- preserves _ (if ?b then _ else _) => destruct b
  | |- preserves _ (match ?x with _ => _ end) => destruct x
  end.

#[local] Instance same_closed_pre : PreOrder same_closed.
Proof. split; [intro; reflexivity | intros a b c; unfold same_closed; congruence]. Qed.

#[local] Instance same_HV_pre : PreOrder same_HV.
Proof. split; [intro; reflexivity | intros a b c; unfold same_HV; congruence]. Qed.

#[local] Instance same_settings_pre : PreOrder same_settings.
Proof.
  split; [intro; repeat split | intros a b c (? & ? & ?) (? & ? & ?); repeat split; congruence].
Qed.

#[local] Instance same_setting_pre k : PreOrder (same_setting k).
Proof. split; [intro; reflexivity | intros a b c; unfold same_setting; congruence]. Qed.

#[local] Instance same_position_pre : PreOrder same_position.
Proof.
  split; [intro; split; reflexivity | intros a b c [? ?] [? ?]; split; congruence].
Qed.

#[local] Instance log_LF_pre : PreOrder log_LF.
Proof. split; [intros s H; exact H | intros a b c H1 H2 H; auto]. Qed.

Lemma log_LF_port s w i : Forall ends_with_LF w ->
  log_LF s (set_port (written s ++ w) i (closed s) s).
Proof. intros Hw H. simpl. apply Forall_app. auto. Qed.

(* ---------------------------------------------------------------------- *)
(** ** Counting the writes *)

Lemma writes_le_split n N {A B} (m : M A) (f : A -> M B) : (n <= N)%nat ->
  writes_le n m -> (forall a, writes_le (N - n) (f a)) -> writes_le N (bind m f).
Proof.
  intros HN Hm Hf s. unfold bind. destruct (Hm s) as (w1 & E1 & L1).
  destruct (m s) as [[a|e] s1]; simpl in *.
  - destruct (Hf a s1) as (w2 & E2 & L2). exists (w1 ++ w2).
    rewrite E2, E1, app_assoc, length_app. split; [reflexivity | lia].
  - exists w1. split; [exact E1 | lia].
Qed.

Lemma writes_le_ret N {A} (a : A) : writes_le N (ret a).
Proof. intro s. exists []. split; [symmetry; apply app_nil_r | simpl; lia]. Qed.

Lemma writes_le_get N : writes_le N get.
Proof. intro s. exists []. split; [symmetry; apply app_nil_r | simpl; lia]. Qed.

Lemma writes_le_lift N {A} (o : outcome A) : writes_le N (lift o).
Proof. intro s. exists []. split; [symmetry; apply app_nil_r | simpl; lia]. Qed.

Lemma writes_le_modify N f : (forall s, written (f s) = written s) -> writes_le N (modify f).
Proof. intros H s. exists []. split; [simpl; rewrite H; symmetry; apply app_nil_r | simpl; lia]. Qed.

Lemma writes_le_set_setting N k v : writes_le N (modify (set_setting k v)).
Proof. apply writes_le_modify. intro s. destruct k; reflexivity. Qed.

Lemma writes_le_set_HV N b : writes_le N (modify (set_HV b)).
Proof. apply writes_le_modify. reflexivity. Qed.

Lemma writes_le_set_position N x y : writes_le N (modify (set_position x y)).
Proof. apply writes_le_modify. reflexivity. Qed.

Lemma writes_le_send_cmd n c : writes_le 1 (send_cmd n c).
Proof.
  intro s. destruct (normalize c) as [b|e] eqn:E.
  - rewrite (send_cmd_eq _ _ _ _ E). exists [b]. split; reflexivity.
  - rewrite (send_cmd_raise _ _ _ _ E). exists []. split; [symmetry; apply app_nil_r | simpl; lia].
Qed.

Create HintDb writes.
#[local] Hint Resolve writes_le_ret writes_le_get writes_le_lift writes_le_set_setting
  writes_le_set_HV writes_le_set_position writes_le_send_cmd : writes.

Ltac count_writes :=
  match goal with
  | |- writes_le ?N (bind ?m _) =>
      first [ apply (writes_le_split 0 N m); [lia | solve [count_writes] | intros ?; count_writes]
            | apply (writes_le_split 1 N m); [lia | solve [count_writes] | intros ?; count_writes] ]
  | |- writes_le _ (if ?b then _ else _) => destruct b; count_writes
  | |- writes_le _ (match ?x with _ => _ end) => destruct x; count_writes
  | |- writes_le _ _ => solve [auto with writes]
  end.

Lemma writes_le_set_param tok lo hi k v : writes_le 1 (set_param tok lo hi k v).
Proof. unfold set_param. count_writes. Qed.

Lemma writes_le_setter k v : writes_le 1 (setter k v).
Proof. destruct k; apply writes_le_set_param. Qed.

Lemma writes_le_set_Vbias v : writes_le 1 (set_Vbias v).
Proof. apply (writes_le_setter SVbias). Qed.
Lemma writes_le_set_VdifferenceMax v : writes_le 1 (set_VdifferenceMax v).
Proof. apply (writes_le_setter SVdifferenceMax). Qed.
Lemma writes_le_set_HardwareFilterBW v : writes_le 1 (set_HardwareFilterBW v).
Proof. apply (writes_le_setter SHardwareFilterBW). Qed.

#[local] Hint Resolve writes_le_set_Vbias writes_le_set_VdifferenceMax
  writes_le_set_HardwareFilterBW : writes.

Lemma writes_le_print N t : writes_le N (print t).
Proof. apply writes_le_modify. reflexivity. Qed.

Lemma writes_le_print_all N l : writes_le N (print_all l).
Proof.
  induction l as [|t l IH]; simpl; [apply writes_le_ret|].
  intro s. destruct (IH (add_console t s)) as (w & E & L). exists w. split; [exact E | exact L].
Qed.

#[local] Hint Resolve writes_le_print writes_le_print_all : writes.

(** The methods, for any preorder [R] that every port operation keeps. *)
Section Methods.
Variable R : session -> session -> Prop.
Context {R_pre : PreOrder R}.
Hypothesis R_port : forall s w i, Forall ends_with_LF w ->
  R s (set_port (written s ++ w) i (closed s) s).

Lemma preserves_set_param tok lo hi k v :
  (forall s z, R s (set_setting k (Some z) s)) -> preserves R (set_param tok lo hi k v).
Proof. intro HS. unfold set_param. frame; auto. Qed.

Lemma preserves_set_mirror_params a b c :
  (forall s k z, R s (set_setting k (Some z) s)) -> preserves R (set_mirror_params a b c).
Proof.
  intro HS. unfold set_mirror_params, set_Vbias, set_VdifferenceMax, set_HardwareFilterBW.
  frame; apply preserves_set_param; auto.
Qed.

Lemma preserves_set_mirror_position x y :
  (forall s x y, R s (set_position x y s)) -> preserves R (set_mirror_position x y).
Proof. intro HP. unfold set_mirror_position. frame; auto. Qed.

Lemma preserves_HV_on : (forall s, R s (set_HV true s)) -> preserves R HV_on.
Proof. intro HH. unfold HV_on, get_mirror_params. frame; auto. Qed.

Lemma preserves_HV_off : (forall s, R s (set_HV false s)) -> preserves R HV_off.
Proof. intro HH. unfold HV_off. frame; auto. Qed.

Lemma preserves_troubleshoot : preserves R troubleshoot.
Proof. unfold troubleshoot. frame; auto. Qed.

Lemma preserves_exit_safely verbose :
  (forall s x y, R s (set_position x y s)) -> (forall s, R s (set_HV false s)) ->
  (forall s, R s (set_port (written s) (incoming s) true s)) ->
  preserves R (exit_safely verbose).
Proof.
  intros HP HH HC. unfold exit_safely, exit_recenter, exit_HV_off, exit_logout,
    get_mirror_position, ser_close.
  frame; auto.
  - apply preserves_set_mirror_position; exact HP.
  - apply preserves_HV_off; exact HH.
  - eexists. reflexivity.
Qed.

Lemma preserves_sign_on verbose :
  (forall s t, R s (add_console t s)) -> preserves R (sign_on verbose).
Proof.
  intro HT. unfold sign_on. frame; auto. eexists. reflexivity.
Qed.

Lemma preserves_get_mirror_params_v verbose :
  (forall s t, R s (add_console t s)) -> preserves R (get_mirror_params_v verbose).
Proof. intro HT. unfold get_mirror_params_v, MEMS_str, get_mirror_params. frame; auto. Qed.
End Methods.

Ltac conj_split := repeat match goal with |- _ /\ _ => split end.

Ltac by_frame L :=
  match goal with |- preserves ?R _ => apply (L R) end;
  try match goal with |- PreOrder _ => exact _ end.

Ltac port_side :=
  try exact _; intros;
  repeat match goal with k : setting |- _ => destruct k end;
  cbv [same_closed same_HV same_settings same_setting same_position];
  simpl; repeat split.

(* ---------------------------------------------------------------------- *)
(** ** The port and the write log *)

(** Every method other than [exit_safely] leaves the port open ([ser.close()]
    is called nowhere else): the sign-on of [__init__], [_send_cmd] with any
    payload, the setters, [set_mirror_params], [set_mirror_position],
    [HV_on], [HV_off], [troubleshoot], [get_mirror_params],
    [get_mirror_position] and [__str__].  Each appends at most one command
    to what was written before: three for [set_mirror_params], none for
    [get_mirror_params], [get_mirror_position] and [__str__]. *)
Theorem methods_keep_port_open (v a b c : pyval) (x y : pynum) (verbose : bool)
  (n : nat) (cmd : cmd_arg) :
  preserves same_closed (set_Vbias v) /\ preserves same_closed (set_VdifferenceMax v)
  /\ preserves same_closed (set_HardwareFilterBW v)
  /\ preserves same_closed (set_mirror_params a b c)
  /\ preserves same_closed (set_mirror_position x y)
  /\ preserves same_closed HV_on /\ preserves same_closed HV_off
  /\ preserves same_closed troubleshoot
  /\ preserves same_closed (get_mirror_params_v verbose)
  /\ writes_le 1 (set_Vbias v) /\ writes_le 1 (set_VdifferenceMax v)
  /\ writes_le 1 (set_HardwareFilterBW v) /\ writes_le 3 (set_mirror_params a b c)
  /\ writes_le 1 (set_mirror_position x y) /\ writes_le 1 HV_on
  /\ writes_le 1 HV_off /\ writes_le 1 troubleshoot
  /\ writes_le 0 (get_mirror_params_v verbose)
  /\ preserves same_closed (sign_on verbose) /\ preserves same_closed (send_cmd n cmd)
  /\ preserves same_closed get_mirror_position /\ preserves same_closed MEMS_str
  /\ writes_le 1 (send_cmd n cmd) /\ writes_le 0 get_mirror_position
  /\ writes_le 0 MEMS_str.
Proof.
  conj_split.
  - by_frame preserves_set_param; port_side.
  - by_frame preserves_set_param; port_side.
  - by_frame preserves_set_param; port_side.
  - by_frame preserves_set_mirror_params; port_side.
  - by_frame preserves_set_mirror_position; port_side.
  - by_frame preserves_HV_on; port_side.
  - by_frame preserves_HV_off; port_side.
  - by_frame preserves_troubleshoot; port_side.
  - by_frame preserves_get_mirror_params_v; port_side.
  - apply writes_le_set_Vbias.
  - apply writes_le_set_VdifferenceMax.
  - apply writes_le_set_HardwareFilterBW.
  - unfold set_mirror_params. count_writes.
  - unfold set_mirror_position. count_writes.
  - unfold HV_on, get_mirror_params. count_writes.
  - unfold HV_off. count_writes.
  - unfold troubleshoot. count_writes.
  - unfold get_mirror_params_v, MEMS_str, get_mirror_params. count_writes.
  - by_frame preserves_sign_on; port_side.
  - by_frame preserves_send_cmd; port_side.
  - unfold get_mirror_position. frame.
  - unfold MEMS_str. frame; port_side.
  - apply writes_le_send_cmd.
  - unfold get_mirror_position. count_writes.
  - unfold MEMS_str. count_writes.
Qed.

(** Every command the class writes ends with a line feed: if all entries
    of the write log end with LF before a method runs, they all do after
    it, for every method: the setters, [set_mirror_params],
    [set_mirror_position], [HV_on], [HV_off], [troubleshoot],
    [get_mirror_params], [exit_safely], the sign-on, [_send_cmd] called
    with any payload, [get_mirror_position] and [__str__]; a new object's
    log is the single sign-on command. *)
Theorem written_commands_end_with_LF (v a b c : pyval) (x y : pynum) (verbose : bool)
  (vb vd hw : option Z) (r : list bytes) (n : nat) (cmd : cmd_arg) :
  preserves log_LF (set_Vbias v) /\ preserves log_LF (set_VdifferenceMax v)
  /\ preserves log_LF (set_HardwareFilterBW v)
  /\ preserves log_LF (set_mirror_params a b c)
  /\ preserves log_LF (set_mirror_position x y)
  /\ preserves log_LF HV_on /\ preserves log_LF HV_off
  /\ preserves log_LF troubleshoot /\ preserves log_LF (get_mirror_params_v verbose)
  /\ preserves log_LF (exit_safely verbose)
  /\ Forall ends_with_LF (written (snd (MEMS_device verbose vb vd hw x y r)))
  /\ preserves log_LF (sign_on verbose) /\ preserves log_LF (send_cmd n cmd)
  /\ preserves log_LF get_mirror_position /\ preserves log_LF MEMS_str.
Proof.
  assert (HP := log_LF_port).
  assert (HS : forall s k z, log_LF s (set_setting k (Some z) s))
    by (intros s k z H; destruct k; exact H).
  conj_split.
  - by_frame preserves_set_param; auto.
  - by_frame preserves_set_param; auto.
  - by_frame preserves_set_param; auto.
  - by_frame preserves_set_mirror_params; auto.
  - by_frame preserves_set_mirror_position; auto. intros s x' y' H; exact H.
  - by_frame preserves_HV_on; auto. intros s H; exact H.
  - by_frame preserves_HV_off; auto. intros s H; exact H.
  - by_frame preserves_troubleshoot; auto.
  - by_frame preserves_get_mirror_params_v. intros s t H; exact H.
  - by_frame preserves_exit_safely; auto; [intros s x' y' H | intros s H | intros s H]; exact H.
  - unfold MEMS_device.
    apply (preserves_sign_on log_LF HP verbose ltac:(intros s t H; exact H)).
    constructor.
  - by_frame preserves_sign_on; auto. intros s t H; exact H.
  - by_frame preserves_send_cmd; auto.
  - unfold get_mirror_position. frame.
  - unfold MEMS_str. frame. intro H; exact H.
Qed.

(* ---------------------------------------------------------------------- *)
(** ** Which state each method may change *)

(** The cached settings change only in the setters: [HV_on], [HV_off],
    [set_mirror_position], [troubleshoot], [get_mirror_params] and
    [exit_safely] leave all three alone, and each setter leaves the other
    two settings alone whatever its argument and the reply. *)
Theorem settings_change_only_in_setters (k k' : setting) (v : pyval) (x y : pynum)
  (verbose : bool) :
  preserves same_settings HV_on /\ preserves same_settings HV_off
  /\ preserves same_settings (set_mirror_position x y)
  /\ preserves same_settings troubleshoot
  /\ preserves same_settings (get_mirror_params_v verbose)
  /\ preserves same_settings (exit_safely verbose)
  /\ (k <> k' -> preserves (same_setting k') (setter k v)).
Proof.
  conj_split.
  - by_frame preserves_HV_on; port_side.
  - by_frame preserves_HV_off; port_side.
  - by_frame preserves_set_mirror_position; port_side.
  - by_frame preserves_troubleshoot; port_side.
  - by_frame preserves_get_mirror_params_v; port_side.
  - by_frame preserves_exit_safely; port_side.
  - intro Hk. destruct k;
      unfold setter, set_Vbias, set_VdifferenceMax, set_HardwareFilterBW;
      by_frame preserves_set_param;
      intros; destruct k'; try congruence; reflexivity.
Qed.

(** The HV flag changes only in [HV_on], [HV_off] and [exit_safely], and
    the cached position only in [set_mirror_position] and [exit_safely]. *)
Theorem HV_and_position_frame (v a b c : pyval) (x y : pynum) (verbose : bool) :
  preserves same_HV (set_Vbias v) /\ preserves same_HV (set_VdifferenceMax v)
  /\ preserves same_HV (set_HardwareFilterBW v)
  /\ preserves same_HV (set_mirror_params a b c)
  /\ preserves same_HV (set_mirror_position x y)
  /\ preserves same_HV troubleshoot /\ preserves same_HV (get_mirror_params_v verbose)
  /\ preserves same_position (set_Vbias v) /\ preserves same_position (set_VdifferenceMax v)
  /\ preserves same_position (set_HardwareFilterBW v)
  /\ preserves same_position (set_mirror_params a b c)
  /\ preserves same_position HV_on /\ preserves same_position HV_off
  /\ preserves same_position troubleshoot
  /\ preserves same_position (get_mirror_params_v verbose).
Proof.
  conj_split.
  - by_frame preserves_set_param; port_side.
  - by_frame preserves_set_param; port_side.
  - by_frame preserves_set_param; port_side.
  - by_frame preserves_set_mirror_params; port_side.
  - by_frame preserves_set_mirror_position; port_side.
  - by_frame preserves_troubleshoot; port_side.
  - by_frame preserves_get_mirror_params_v; port_side.
  - by_frame preserves_set_param; port_side.
  - by_frame preserves_set_param; port_side.
  - by_frame preserves_set_param; port_side.
  - by_frame preserves_set_mirror_params; port_side.
  - by_frame preserves_HV_on; port_side.
  - by_frame preserves_HV_off; port_side.
  - by_frame preserves_troubleshoot; port_side.
  - by_frame preserves_get_mirror_params_v; port_side.
Qed.

(* ---------------------------------------------------------------------- *)
(** ** Runs where the board acknowledges *)

Lemma read_chunk_OK t : read_chunk 250 (MTI_OK :: t) = (MTI_OK, t).
Proof. reflexivity. Qed.

Lemma readline_chunk_exit t : readline_chunk (MTI_Exit_Ack :: t) = (MTI_Exit_Ack, t).
Proof. reflexivity. Qed.

Lemma decode_OK : decode MTI_OK = Ret MTI_OK.
Proof. reflexivity. Qed.

Lemma setter_eq k : setter k = set_param (setter_token k) (setter_lo k) (setter_hi k) k.
Proof. destruct k; reflexivity. Qed.

Lemma set_param_ok tok lo hi k z s t :
  is_HV_on s = false -> lo <= z <= hi -> 0 <= z -> forallb is_ascii tok = true ->
  incoming s = MTI_OK :: t ->
  set_param tok lo hi k (PInt z) s =
  (Ret true, set_setting k (Some z)
               (set_port (written s ++ [tok ++ py_str_int z ++ [LF]]) t (closed s) s)).
Proof.
  intros Hhv Hr Hz Htok Hinc. rewrite set_param_eval by assumption.
  unfold next_read. rewrite Hinc, read_chunk_OK. simpl fst. simpl snd.
  rewrite decode_OK, list_Z_eqb_refl. reflexivity.
Qed.

Lemma HV_on_ok s t :
  Vbias s <> None -> VdifferenceMax s <> None -> HardwareFilterBW s <> None ->
  incoming s = MTI_OK :: t ->
  HV_on s = (Ret true, set_HV true (set_port (written s ++ [lit "MTI+EN" ++ [LF]]) t (closed s) s)).
Proof.
  intros H1 H2 H3 Hinc. unfold HV_on, get_mirror_params, bind at 1 2, get, ret.
  destruct (Vbias s) as [vb|]; [|congruence].
  destruct (VdifferenceMax s) as [vd|]; [|congruence].
  destruct (HardwareFilterBW s) as [hw|]; [|congruence].
  cbn [existsb is_none orb]. unfold bind.
  rewrite (send_cmd_eq 250 (CStr (lit "MTI+EN" ++ [LF])) s (lit "MTI+EN" ++ [LF]) eq_refl).
  unfold next_read. rewrite Hinc, read_chunk_OK. simpl fst. simpl snd.
  rewrite decode_OK, list_Z_eqb_refl. reflexivity.
Qed.

Lemma HV_off_ok s t : incoming s = MTI_OK :: t ->
  HV_off s = (Ret true, set_HV false (set_port (written s ++ [lit "MTI+DI" ++ [LF]]) t (closed s) s)).
Proof.
  intro Hinc. unfold HV_off, bind at 1.
  rewrite (send_cmd_eq 250 (CStr (lit "MTI+DI" ++ [LF])) s (lit "MTI+DI" ++ [LF]) eq_refl).
  unfold next_read. rewrite Hinc, read_chunk_OK. simpl fst. simpl snd.
  rewrite decode_OK, list_Z_eqb_refl. reflexivity.
Qed.

Lemma set_mirror_position_in_range x y :
  (-1 <= num_val x <= 1)%Q -> (-1 <= num_val y <= 1)%Q ->
  py_lt (num_val x) (-1) || py_lt (num_val y) (-1)
  || py_lt 1 (num_val x) || py_lt 1 (num_val y) = false.
Proof.
  intros [Hx1 Hx2] [Hy1 Hy2].
  rewrite (py_lt_false _ _ Hx1), (py_lt_false _ _ Hy1), (py_lt_false _ _ Hx2),
    (py_lt_false _ _ Hy2). reflexivity.
Qed.

Lemma set_mirror_position_eval x y s :
  (-1 <= num_val x <= 1)%Q -> (-1 <= num_val y <= 1)%Q ->
  set_mirror_position x y s =
  let s1 := set_port (written s ++ [goto_cmd x y]) (snd (read_chunk 250 (incoming s)))
                     (closed s) s in
  match decode (next_read 250 s) with
  | Ret resp => if list_Z_eqb resp MTI_OK then (Ret (Some true), set_position x y s1)
                else (Ret None, s1)
  | Raise e => (Raise e, s1)
  end.
Proof.
  intros Hx Hy. unfold set_mirror_position. rewrite (set_mirror_position_in_range _ _ Hx Hy).
  unfold bind at 1. rewrite (send_cmd_eq _ _ _ _ (normalize_position x y)).
  unfold goto_cmd. rewrite <- !app_assoc.
  destruct (decode (next_read 250 s)) as [t|e]; [|reflexivity].
  destruct (list_Z_eqb t MTI_OK); reflexivity.
Qed.

Lemma exit_logout_ok verbose s t : incoming s = MTI_Exit_Ack :: t ->
  exit_logout verbose s = (Ret true, set_port (written s ++ [lit "MTI+EX" ++ [LF]]) t true s).
Proof.
  intro Hinc. unfold exit_logout, bind, ser_write, ser_readline, ser_close, modify, lift, ret.
  simpl. rewrite Hinc, readline_chunk_exit.
  destruct verbose; reflexivity.
Qed.

(* ---------------------------------------------------------------------- *)
(** ** Setters and getters *)

Lemma print_all_eq l : forall s, print_all l s =
  (Ret tt, mk_session (is_HV_on s) (Vbias s) (VdifferenceMax s) (HardwareFilterBW s)
                      (pos_x s) (pos_y s) (written s) (incoming s) (closed s)
                      (console s ++ l)).
Proof.
  induction l as [|t l IH]; intro s.
  - destruct s. simpl. rewrite app_nil_r. reflexivity.
  - cbn [print_all]. unfold bind, print, modify. rewrite IH.
    simpl. rewrite <- app_assoc. reflexivity.
Qed.

(** A setter call that the board acknowledges is seen by
    [get_mirror_params]: with HV off and an in-range int [z], a reply
    decoding to ["MTI-OK\r\n"] makes the setter return [True], and the
    triple returned next has [z] in the setter's slot and the two other
    settings as they were. *)
Theorem setter_then_get_mirror_params (k : setting) (z : Z) (s : session) :
  is_HV_on s = false -> setter_lo k <= z <= setter_hi k ->
  utf8_decode (next_read 250 s) = Some MTI_OK ->
  let '(o, s1) := setter k (PInt z) s in
  o = Ret true /\
  fst (get_mirror_params s1) =
    Ret (match k with
         | SVbias => (Some z, VdifferenceMax s, HardwareFilterBW s)
         | SVdifferenceMax => (Vbias s, Some z, HardwareFilterBW s)
         | SHardwareFilterBW => (Vbias s, VdifferenceMax s, Some z)
         end).
Proof.
  intros Hhv Hr Hok. rewrite setter_eq.
  assert (Hlo : 0 <= setter_lo k) by (destruct k; simpl; lia).
  rewrite set_param_eval by (try assumption; try lia; destruct k; reflexivity).
  unfold decode. rewrite Hok, list_Z_eqb_refl.
  destruct k; split; reflexivity.
Qed.

Lemma setter_then_get_mirror_params_witness :
  is_HV_on (demo_session false (NInt 0) (NInt 0) [MTI_OK]) = false
  /\ setter_lo SVbias <= 42 <= setter_hi SVbias
  /\ utf8_decode (next_read 250 (demo_session false (NInt 0) (NInt 0) [MTI_OK])) = Some MTI_OK
  /\ let '(o, s1) := setter SVbias (PInt 42) (demo_session false (NInt 0) (NInt 0) [MTI_OK]) in
     o = Ret true /\ fst (get_mirror_params s1) = Ret (Some 42, Some 100, Some 200).
Proof.
  split; [reflexivity|]. split; [simpl; lia|]. split; [reflexivity|].
  exact (setter_then_get_mirror_params SVbias 42
           (demo_session false (NInt 0) (NInt 0) [MTI_OK]) eq_refl
           ltac:(simpl; lia) eq_refl).
Defined.

(** With HV off, a setter given an in-range int writes exactly
    ["<token> <str(z)>\n"] ([MTI+VB], [MTI+VD] or [MTI+BW] followed by the
    decimal digits of [z]) and consumes one reply, whatever that reply is. *)
Theorem setter_command_bytes (k : setting) (z : Z) (s : session) :
  is_HV_on s = false -> setter_lo k <= z <= setter_hi k ->
  written (snd (setter k (PInt z) s)) = written s ++ [setter_token k ++ py_str_int z ++ [LF]]
  /\ incoming (snd (setter k (PInt z) s)) = snd (read_chunk 250 (incoming s)).
Proof.
  intros Hhv Hr. rewrite setter_eq.
  assert (Hlo : 0 <= setter_lo k) by (destruct k; simpl; lia).
  rewrite set_param_eval by (try assumption; try lia; destruct k; reflexivity).
  destruct (decode (next_read 250 s)) as [t|e]; [destruct (list_Z_eqb t MTI_OK)|];
    destruct k; split; reflexivity.
Qed.

Lemma setter_command_bytes_witness :
  is_HV_on (demo_session false (NInt 0) (NInt 0) [[255]]) = false
  /\ setter_lo SHardwareFilterBW <= 15000 <= setter_hi SHardwareFilterBW
  /\ written (snd (setter SHardwareFilterBW (PInt 15000)
                    (demo_session false (NInt 0) (NInt 0) [[255]])))
     = [lit "MTI+BW 15000" ++ [LF]].
Proof.
  split; [reflexivity|]. split; [simpl; lia|].
  exact (proj1 (setter_command_bytes SHardwareFilterBW 15000
                  (demo_session false (NInt 0) (NInt 0) [[255]]) eq_refl
                  ltac:(simpl; lia))).
Defined.

(** [get_mirror_params(verbose)] returns the three cached settings and
    touches neither the port nor the state; with [verbose] it prints the
    [__str__] report (HV state, then each setting, [None] when unset)
    followed by an empty line, the [""] that [__str__] returns. *)
Theorem get_mirror_params_report (verbose : bool) (s : session) :
  let '(o, s1) := get_mirror_params_v verbose s in
  o = Ret (Vbias s, VdifferenceMax s, HardwareFilterBW s)
  /\ console s1 = console s ++ (if verbose then report_lines s ++ [[]] else [])
  /\ s1 = mk_session (is_HV_on s) (Vbias s) (VdifferenceMax s) (HardwareFilterBW s)
                     (pos_x s) (pos_y s) (written s) (incoming s) (closed s) (console s1).
Proof.
  destruct verbose.
  - unfold get_mirror_params_v, MEMS_str, get_mirror_params, print, modify, bind, get, ret.
    cbv beta iota. rewrite print_all_eq. cbv beta iota.
    cbn [console is_HV_on Vbias VdifferenceMax HardwareFilterBW pos_x pos_y written
         incoming closed add_console].
    split; [reflexivity|]. split; [symmetry; apply app_assoc | reflexivity].
  - destruct s. repeat split. simpl. symmetry. apply app_nil_r.
Qed.

(* ---------------------------------------------------------------------- *)
(** ** Mirror position and high voltage *)

(** [set_mirror_position] never looks at the HV state: for an in-range
    [x, y] it writes ["MTI+GT <str(x)> <str(y)> 0\n"] whether HV is on or
    off, and leaves the HV flag as it was. *)
Theorem set_mirror_position_ignores_HV (x y : pynum) (s : session) :
  (-1 <= num_val x <= 1)%Q -> (-1 <= num_val y <= 1)%Q ->
  written (snd (set_mirror_position x y s)) = written s ++ [goto_cmd x y]
  /\ is_HV_on (snd (set_mirror_position x y s)) = is_HV_on s.
Proof.
  intros Hx Hy. rewrite (set_mirror_position_eval _ _ _ Hx Hy).
  destruct (decode (next_read 250 s)) as [t|e]; [destruct (list_Z_eqb t MTI_OK)|];
    split; reflexivity.
Qed.

Lemma set_mirror_position_ignores_HV_witness :
  (-1 <= num_val (NInt 1) <= 1)%Q /\ (-1 <= num_val (NInt (-1)) <= 1)%Q
  /\ written (snd (set_mirror_position (NInt 1) (NInt (-1))
                    (demo_session false (NInt 0) (NInt 0) [MTI_OK])))
     = [lit "MTI+GT 1 -1 0" ++ [LF]].
Proof.
  assert (H1 : (-1 <= num_val (NInt 1) <= 1)%Q) by (split; vm_compute; discriminate).
  assert (H2 : (-1 <= num_val (NInt (-1)) <= 1)%Q) by (split; vm_compute; discriminate).
  split; [exact H1|]. split; [exact H2|].
  exact (proj1 (set_mirror_position_ignores_HV (NInt 1) (NInt (-1))
                  (demo_session false (NInt 0) (NInt 0) [MTI_OK]) H1 H2)).
Defined.

(** [HV_off] sends ["MTI+DI\n"] whatever the HV state; it clears the HV
    flag and returns [True] on a reply decoding to ["MTI-OK\r\n"]; on any
    other reply the flag is unchanged and the call returns [False], or
    raises [UnicodeDecodeError] on a reply that is not UTF-8. *)
Theorem HV_off_outcomes (s : session) :
  let '(o, s1) := HV_off s in
  written s1 = written s ++ [lit "MTI+DI" ++ [LF]] /\
  (utf8_decode (next_read 250 s) = Some MTI_OK -> o = Ret true /\ is_HV_on s1 = false) /\
  (forall t, utf8_decode (next_read 250 s) = Some t -> t <> MTI_OK ->
     o = Ret false /\ is_HV_on s1 = is_HV_on s) /\
  (utf8_decode (next_read 250 s) = None ->
     o = Raise UnicodeDecodeError /\ is_HV_on s1 = is_HV_on s).
Proof.
  unfold HV_off, bind at 1.
  rewrite (send_cmd_eq 250 (CStr (lit "MTI+DI" ++ [LF])) s (lit "MTI+DI" ++ [LF]) eq_refl).
  unfold decode. destruct (utf8_decode (next_read 250 s)) as [t|] eqn:Ed.
  - destruct (list_Z_eqb t MTI_OK) eqn:Eok.
    + apply list_Z_eqb_eq in Eok. subst t.
      split; [reflexivity|]. split; [intros _; split; reflexivity|].
      split; [intros t' Ht' Hne; injection Ht'; congruence | discriminate].
    + split; [reflexivity|].
      split; [intro Ht; injection Ht as ->; rewrite list_Z_eqb_refl in Eok; discriminate|].
      split; [intros t' Ht' _; injection Ht' as <-; split; reflexivity
             | discriminate].
  - split; [reflexivity|]. split; [discriminate|]. split; [discriminate|].
    intros _. split; reflexivity.
Qed.

(** [HV_on] does not look at the HV state either: with the three settings
    set it sends ["MTI+EN\n"] again when HV is already on; the flag is set
    and [True] returned on a reply decoding to ["MTI-OK\r\n"], and on any
    other reply the flag keeps the value it had (HV stays on if it was on). *)
Theorem HV_on_ignores_current_state (s : session) :
  Vbias s <> None -> VdifferenceMax s <> None -> HardwareFilterBW s <> None ->
  let '(o, s1) := HV_on s in
  written s1 = written s ++ [lit "MTI+EN" ++ [LF]] /\
  (utf8_decode (next_read 250 s) = Some MTI_OK -> o = Ret true /\ is_HV_on s1 = true) /\
  (utf8_decode (next_read 250 s) <> Some MTI_OK ->
     (o = Ret false \/ o = Raise UnicodeDecodeError) /\ is_HV_on s1 = is_HV_on s).
Proof.
  intros H1 H2 H3. unfold HV_on, get_mirror_params, bind at 1 2, get, ret.
  destruct (Vbias s) as [vb|]; [|congruence].
  destruct (VdifferenceMax s) as [vd|]; [|congruence].
  destruct (HardwareFilterBW s) as [hw|]; [|congruence].
  cbn [existsb is_none orb]. unfold bind.
  rewrite (send_cmd_eq 250 (CStr (lit "MTI+EN" ++ [LF])) s (lit "MTI+EN" ++ [LF]) eq_refl).
  unfold decode. destruct (utf8_decode (next_read 250 s)) as [t|] eqn:Ed.
  - destruct (list_Z_eqb t MTI_OK) eqn:Eok.
    + apply list_Z_eqb_eq in Eok. subst t.
      split; [reflexivity|]. split; [intros _; split; reflexivity | intro Hne; congruence].
    + split; [reflexivity|].
      split; [intro Ht; injection Ht as ->; rewrite list_Z_eqb_refl in Eok; discriminate|].
      intros _. split; [left; reflexivity | reflexivity].
  - split; [reflexivity|]. split; [discriminate|].
    intros _. split; [right; reflexivity | reflexivity].
Qed.

Lemma HV_on_ignores_current_state_witness :
  Vbias (demo_session true (NInt 0) (NInt 0) [[255]]) <> None
  /\ VdifferenceMax (demo_session true (NInt 0) (NInt 0) [[255]]) <> None
  /\ HardwareFilterBW (demo_session true (NInt 0) (NInt 0) [[255]]) <> None
  /\ let '(o, s1) := HV_on (demo_session true (NInt 0) (NInt 0) [[255]]) in
     written s1 = [lit "MTI+EN" ++ [LF]] /\
     (utf8_decode (next_read 250 (demo_session true (NInt 0) (NInt 0) [[255]]))
        = Some MTI_OK -> o = Ret true /\ is_HV_on s1 = true) /\
     (utf8_decode (next_read 250 (demo_session true (NInt 0) (NInt 0) [[255]]))
        <> Some MTI_OK ->
        (o = Ret false \/ o = Raise UnicodeDecodeError) /\ is_HV_on s1 = true).
Proof.
  split; [discriminate|]. split; [discriminate|]. split; [discriminate|].
  exact (HV_on_ignores_current_state (demo_session true (NInt 0) (NInt 0) [[255]])
           ltac:(discriminate) ltac:(discriminate) ltac:(discriminate)).
Defined.

Lemma HV_on_true_inv s s1 : HV_on s = (Ret true, s1) -> is_HV_on s1 = true.
Proof.
  unfold HV_on, get_mirror_params, bind at 1 2, get, ret. intro H.
  destruct (Vbias s), (VdifferenceMax s), (HardwareFilterBW s);
    cbn [existsb is_none orb] in H; try discriminate.
  unfold bind in H.
  destruct (send_cmd 250 (CStr (lit "MTI+EN" ++ [LF])) s) as [[t|e] s2]; [|discriminate].
  destruct (list_Z_eqb t MTI_OK); [|discriminate].
  injection H as <-. reflexivity.
Qed.

#[local] Instance HV_stays_on_pre : PreOrder HV_stays_on.
Proof. split; [intros s H; exact H | intros a b c H1 H2 H; auto]. Qed.

Lemma after_call_HV c s : HV_stays_on s (after_call c s).
Proof.
  assert (HP : forall s w i, Forall ends_with_LF w ->
            HV_stays_on s (set_port (written s ++ w) i (closed s) s))
    by (intros s0 w i _ H; exact H).
  assert (HS : forall s k z, HV_stays_on s (set_setting k (Some z) s))
    by (intros s0 k z H; destruct k; exact H).
  assert (HT : forall s t, HV_stays_on s (add_console t s)) by (intros s0 t H; exact H).
  destruct c; cbn [after_call]; revert s.
  - change (preserves HV_stays_on (set_Vbias v)). by_frame preserves_set_param; auto.
  - change (preserves HV_stays_on (set_VdifferenceMax v)).
    by_frame preserves_set_param; auto.
  - change (preserves HV_stays_on (set_HardwareFilterBW v)).
    by_frame preserves_set_param; auto.
  - change (preserves HV_stays_on (set_mirror_params a b c)).
    by_frame preserves_set_mirror_params; auto.
  - change (preserves HV_stays_on (get_mirror_params_v verbose)).
    by_frame preserves_get_mirror_params_v; auto.
  - change (preserves HV_stays_on (set_mirror_position x y)).
    by_frame preserves_set_mirror_position; auto. intros s0 x0 y0 H; exact H.
  - change (preserves HV_stays_on get_mirror_position). unfold get_mirror_position. frame.
  - change (preserves HV_stays_on MEMS_str). unfold MEMS_str. frame. auto.
  - change (preserves HV_stays_on HV_on). by_frame preserves_HV_on; auto.
    intros s0 _. reflexivity.
  - change (preserves HV_stays_on troubleshoot). by_frame preserves_troubleshoot; auto.
  - change (preserves HV_stays_on (send_cmd read_n_char cmd)).
    by_frame preserves_send_cmd; auto.
Qed.

Lemma after_calls_HV l : forall s, HV_stays_on s (after_calls l s).
Proof.
  induction l as [|c l IH]; intro s; simpl; [reflexivity|].
  transitivity (after_call c s); [apply after_call_HV | apply IH].
Qed.

(** Once [HV_on] has returned [True], the parameters stay locked until HV
    is turned off: after any sequence of further calls other than [HV_off]
    and [exit_safely] (each of which may return or raise), HV is still on,
    and every setter, and [set_mirror_params], returns [False] for any
    argument and leaves the session as it is, writing nothing. *)
Theorem HV_on_locks_parameters (s s1 : session) (l : list method_call) :
  HV_on s = (Ret true, s1) ->
  is_HV_on (after_calls l s1) = true /\
  forall v a b c,
    set_Vbias v (after_calls l s1) = (Ret false, after_calls l s1)
    /\ set_VdifferenceMax v (after_calls l s1) = (Ret false, after_calls l s1)
    /\ set_HardwareFilterBW v (after_calls l s1) = (Ret false, after_calls l s1)
    /\ set_mirror_params a b c (after_calls l s1) = (Ret false, after_calls l s1).
Proof.
  intro H. pose proof (after_calls_HV l s1 (HV_on_true_inv _ _ H)) as Hon.
  split; [exact Hon|].
  assert (Hp : forall tok lo hi k v,
             set_param tok lo hi k v (after_calls l s1) = (Ret false, after_calls l s1))
    by (intros; unfold set_param, bind, get; rewrite Hon; reflexivity).
  intros v a b c. unfold set_Vbias, set_VdifferenceMax, set_HardwareFilterBW.
  rewrite !Hp. split; [reflexivity|]. split; [reflexivity|]. split; [reflexivity|].
  unfold set_mirror_params, set_Vbias, set_VdifferenceMax, set_HardwareFilterBW, bind.
  rewrite Hp, Hp, Hp. reflexivity.
Qed.

Lemma HV_on_locks_parameters_witness :
  HV_on (demo_session false (NInt 1) (NInt 0) [MTI_OK; [255]])
    = (Ret true, snd (HV_on (demo_session false (NInt 1) (NInt 0) [MTI_OK; [255]])))
  /\ is_HV_on (after_calls [call_set_mirror_position (NInt 0) (NInt 0); call_HV_on;
                            call_troubleshoot; call_set_Vbias (PInt 10)]
                 (snd (HV_on (demo_session false (NInt 1) (NInt 0) [MTI_OK; [255]])))) = true.
Proof.
  assert (H : HV_on (demo_session false (NInt 1) (NInt 0) [MTI_OK; [255]])
    = (Ret true, snd (HV_on (demo_session false (NInt 1) (NInt 0) [MTI_OK; [255]]))))
    by (vm_compute; reflexivity).
  split; [exact H|].
  exact (proj1 (HV_on_locks_parameters _ _ [call_set_mirror_position (NInt 0) (NInt 0);
                  call_HV_on; call_troubleshoot; call_set_Vbias (PInt 10)] H)).
Defined.

(** The usual bring-up: from HV off, [set_mirror_params] with in-range
    ints followed by [HV_on], with the board acknowledging the four
    commands, returns [True] twice and leaves HV on with the three values
    cached; the port has received the four commands in order, and the four
    replies are consumed. *)
Theorem bring_up (a b c : Z) (s : session) (rest : list bytes) :
  is_HV_on s = false -> 0 <= a <= 100 -> 0 <= b <= 200 -> 50 <= c <= 15000 ->
  incoming s = [MTI_OK; MTI_OK; MTI_OK; MTI_OK] ++ rest ->
  let '(o1, s1) := set_mirror_params (PInt a) (PInt b) (PInt c) s in
  let '(o2, s2) := HV_on s1 in
  o1 = Ret true /\ o2 = Ret true /\ is_HV_on s2 = true
  /\ Vbias s2 = Some a /\ VdifferenceMax s2 = Some b /\ HardwareFilterBW s2 = Some c
  /\ written s2 = written s ++ [lit "MTI+VB " ++ py_str_int a ++ [LF];
                               lit "MTI+VD " ++ py_str_int b ++ [LF];
                               lit "MTI+BW " ++ py_str_int c ++ [LF];
                               lit "MTI+EN" ++ [LF]]
  /\ incoming s2 = rest.
Proof.
  intros Hhv Ha Hb Hc Hinc.
  unfold set_mirror_params, set_Vbias, set_VdifferenceMax, set_HardwareFilterBW.
  unfold bind at 1.
  erewrite set_param_ok; [| exact Hhv | exact Ha | lia | reflexivity | exact Hinc].
  cbv beta iota. unfold bind at 1.
  erewrite set_param_ok; [| exact Hhv | exact Hb | lia | reflexivity | reflexivity].
  cbv beta iota. unfold bind at 1.
  erewrite set_param_ok; [| exact Hhv | exact Hc | lia | reflexivity | reflexivity].
  cbv beta iota. unfold ret. cbn [negb orb].
  erewrite HV_on_ok; [| cbn; discriminate | cbn; discriminate | cbn; discriminate
                      | reflexivity].
  cbn [is_HV_on Vbias VdifferenceMax HardwareFilterBW written incoming set_HV
       set_port set_setting].
  repeat split. rewrite <- !app_assoc. reflexivity.
Qed.

Lemma bring_up_witness :
  is_HV_on (demo_session false (NInt 0) (NInt 0) [MTI_OK; MTI_OK; MTI_OK; MTI_OK]) = false
  /\ 0 <= 90 <= 100 /\ 0 <= 100 <= 200 /\ 50 <= 200 <= 15000
  /\ incoming (demo_session false (NInt 0) (NInt 0) [MTI_OK; MTI_OK; MTI_OK; MTI_OK])
     = [MTI_OK; MTI_OK; MTI_OK; MTI_OK] ++ []
  /\ let '(o1, s1) := set_mirror_params (PInt 90) (PInt 100) (PInt 200)
                        (demo_session false (NInt 0) (NInt 0) [MTI_OK; MTI_OK; MTI_OK; MTI_OK]) in
     let '(o2, s2) := HV_on s1 in
     o1 = Ret true /\ o2 = Ret true /\ is_HV_on s2 = true
     /\ Vbias s2 = Some 90 /\ VdifferenceMax s2 = Some 100 /\ HardwareFilterBW s2 = Some 200
     /\ written s2 = [lit "MTI+VB " ++ py_str_int 90 ++ [LF];
                      lit "MTI+VD " ++ py_str_int 100 ++ [LF];
                      lit "MTI+BW " ++ py_str_int 200 ++ [LF];
                      lit "MTI+EN" ++ [LF]]
     /\ incoming s2 = [].
Proof.
  split; [reflexivity|]. split; [lia|]. split; [lia|]. split; [lia|].
  split; [reflexivity|].
  exact (bring_up 90 100 200
           (demo_session false (NInt 0) (NInt 0) [MTI_OK; MTI_OK; MTI_OK; MTI_OK]) []
           eq_refl ltac:(lia) ltac:(lia) ltac:(lia) eq_refl).
Defined.

(* ---------------------------------------------------------------------- *)
(** ** The exit sequence *)

(** With the mirror cached at (0,0) (as an int or a float) and HV off,
    [exit_safely] sends no re-center and no HV-off command: it is exactly
    the logout step. *)
Theorem exit_safely_at_rest (verbose : bool) (s : session) :
  (num_val (pos_x s) == 0)%Q -> (num_val (pos_y s) == 0)%Q -> is_HV_on s = false ->
  exit_safely verbose s = exit_logout verbose s.
Proof.
  intros Hx Hy Hhv.
  unfold exit_safely, exit_recenter, get_mirror_position, exit_HV_off, bind at 1 2 3 4 5,
    get, ret.
  rewrite (proj2 (Qeq_bool_iff _ _) Hx), (proj2 (Qeq_bool_iff _ _) Hy).
  cbn [negb orb]. cbv beta iota. unfold bind. cbv beta iota. rewrite Hhv. reflexivity.
Qed.

Lemma exit_safely_at_rest_witness :
  (num_val (pos_x (demo_session false (NInt 0) (NInt 0) [MTI_Exit_Ack])) == 0)%Q
  /\ (num_val (pos_y (demo_session false (NInt 0) (NInt 0) [MTI_Exit_Ack])) == 0)%Q
  /\ is_HV_on (demo_session false (NInt 0) (NInt 0) [MTI_Exit_Ack]) = false
  /\ exit_safely true (demo_session false (NInt 0) (NInt 0) [MTI_Exit_Ack])
     = exit_logout true (demo_session false (NInt 0) (NInt 0) [MTI_Exit_Ack]).
Proof.
  assert (H0 : (num_val (NInt 0) == 0)%Q) by reflexivity.
  split; [exact H0|]. split; [exact H0|]. split; [reflexivity|].
  exact (exit_safely_at_rest true (demo_session false (NInt 0) (NInt 0) [MTI_Exit_Ack])
           H0 H0 eq_refl).
Defined.

(** A full shutdown: with HV on, the mirror cached away from (0,0) and the
    board acknowledging each command, [exit_safely] sends
    ["MTI+GT 0 0 0\n"], ["MTI+DI\n"] and ["MTI+EX\n"] in that order, and
    returns [True] with the mirror cached at (0,0), HV off, the port closed
    and the cached settings kept. *)
Theorem exit_safely_full_shutdown (verbose : bool) (s : session) (rest : list bytes) :
  is_HV_on s = true -> ~ ((num_val (pos_x s) == 0)%Q /\ (num_val (pos_y s) == 0)%Q) ->
  incoming s = [MTI_OK; MTI_OK; MTI_Exit_Ack] ++ rest ->
  let '(o, s1) := exit_safely verbose s in
  o = Ret true /\ closed s1 = true /\ is_HV_on s1 = false
  /\ pos_x s1 = NInt 0 /\ pos_y s1 = NInt 0
  /\ written s1 = written s ++ [lit "MTI+GT 0 0 0" ++ [LF]; lit "MTI+DI" ++ [LF];
                               lit "MTI+EX" ++ [LF]]
  /\ incoming s1 = rest /\ same_settings s s1.
Proof.
  intros Hhv Hpos Hinc.
  change ([MTI_OK; MTI_OK; MTI_Exit_Ack] ++ rest)
    with (MTI_OK :: MTI_OK :: MTI_Exit_Ack :: rest) in Hinc.
  assert (Hc : negb (Qeq_bool (num_val (pos_x s)) 0)
               || negb (Qeq_bool (num_val (pos_y s)) 0) = true).
  { destruct (Qeq_bool (num_val (pos_x s)) 0) eqn:Ex; [|reflexivity].
    destruct (Qeq_bool (num_val (pos_y s)) 0) eqn:Ey; [|reflexivity].
    exfalso. apply Hpos. split; apply Qeq_bool_iff; assumption. }
  assert (H0 : (-1 <= num_val (NInt 0) <= 1)%Q) by (split; vm_compute; discriminate).
  unfold exit_safely, exit_recenter, get_mirror_position, bind at 1 2 3 4, get, ret.
  cbv beta iota. rewrite Hc.
  rewrite (set_mirror_position_eval _ _ _ H0 H0).
  unfold next_read. rewrite Hinc, read_chunk_OK. cbn [fst snd].
  rewrite decode_OK, list_Z_eqb_refl. cbv beta iota.
  unfold exit_HV_off, bind at 1 2, get. cbn [is_HV_on set_position set_port].
  rewrite Hhv.
  unfold bind. cbv beta iota.
  erewrite HV_off_ok; [|reflexivity]. cbv beta iota.
  unfold ret. cbv beta iota.
  erewrite exit_logout_ok; [|reflexivity].
  cbn [closed is_HV_on pos_x pos_y written incoming set_port set_HV set_position].
  repeat split. rewrite <- !app_assoc. reflexivity.
Qed.

Lemma exit_safely_full_shutdown_witness :
  is_HV_on (demo_session true (NInt 1) (NInt 0) [MTI_OK; MTI_OK; MTI_Exit_Ack]) = true
  /\ ~ ((num_val (pos_x (demo_session true (NInt 1) (NInt 0) [MTI_OK; MTI_OK; MTI_Exit_Ack]))
         == 0)%Q
        /\ (num_val (pos_y (demo_session true (NInt 1) (NInt 0) [MTI_OK; MTI_OK; MTI_Exit_Ack]))
         == 0)%Q)
  /\ closed (snd (exit_safely false
                   (demo_session true (NInt 1) (NInt 0) [MTI_OK; MTI_OK; MTI_Exit_Ack]))) = true.
Proof.
  assert (Hp : ~ ((num_val (pos_x (demo_session true (NInt 1) (NInt 0)
                                     [MTI_OK; MTI_OK; MTI_Exit_Ack])) == 0)%Q
                  /\ (num_val (pos_y (demo_session true (NInt 1) (NInt 0)
                                     [MTI_OK; MTI_OK; MTI_Exit_Ack])) == 0)%Q))
    by (intros [H _]; vm_compute in H; discriminate).
  split; [reflexivity|]. split; [exact Hp|].
  pose proof (exit_safely_full_shutdown false
                (demo_session true (NInt 1) (NInt 0) [MTI_OK; MTI_OK; MTI_Exit_Ack]) []
                eq_refl Hp eq_refl) as H.
  destruct (exit_safely false _) as [o s1]. exact (proj1 (proj2 H)).
Defined.

(* ---------------------------------------------------------------------- *)
(** ** troubleshoot *)

(** [troubleshoot] sends ["MTI+EC\n"], consumes one reply and returns
    [None]; it raises [UnicodeDecodeError] exactly when that reply is not
    UTF-8. *)
Theorem troubleshoot_outcomes (s : session) :
  let '(o, s1) := troubleshoot s in
  written s1 = written s ++ [lit "MTI+EC" ++ [LF]]
  /\ incoming s1 = snd (read_chunk 250 (incoming s))
  /\ (o = Ret tt <-> utf8_decode (next_read 250 s) <> None)
  /\ (o <> Ret tt -> o = Raise UnicodeDecodeError).
Proof.
  unfold troubleshoot, bind at 1.
  rewrite (send_cmd_eq 250 (CStr (lit "MTI+EC" ++ [LF])) s (lit "MTI+EC" ++ [LF]) eq_refl).
  unfold decode. destruct (utf8_decode (next_read 250 s)) as [t|].
  - split; [reflexivity|]. split; [reflexivity|].
    split; [split; [intros _; discriminate | reflexivity]|].
    intro H. contradiction H. reflexivity.
  - split; [reflexivity|]. split; [reflexivity|].
    split; [split; [discriminate | intro H; contradiction H; reflexivity]|].
    intros _. reflexivity.
Qed.

(* ---------------------------------------------------------------------- *)
(** ** The normalization in [_send_cmd] *)

(** Whatever the argument, a normalization that succeeds removes at most
    three bytes from the end of the payload, adds at most one LF, and
    yields bytes that end with LF. *)
Theorem normalize_trims_then_terminates (c : cmd_arg) (p b : bytes) :
  to_bytes c = Ret p -> normalize c = Ret b ->
  exists k, (List.length p - 3 <= k <= List.length p)%nat
            /\ (b = firstn k p \/ b = firstn k p ++ [LF])
            /\ exists q, b = q ++ [LF].
Proof. intros Hp Hb. exact (normalize_shape c p b Hp Hb). Qed.

Lemma normalize_trims_then_terminates_witness :
  to_bytes (CBytes (lit "MTI+VB 10" ++ [CR; CR; LF; CR]))
    = Ret (lit "MTI+VB 10" ++ [CR; CR; LF; CR])
  /\ normalize (CBytes (lit "MTI+VB 10" ++ [CR; CR; LF; CR])) = Ret (lit "MTI+VB 10" ++ [CR; LF])
  /\ exists k, (List.length (lit "MTI+VB 10" ++ [CR; CR; LF; CR]) - 3 <= k
                <= List.length (lit "MTI+VB 10" ++ [CR; CR; LF; CR]))%nat
       /\ (lit "MTI+VB 10" ++ [CR; LF] = firstn k (lit "MTI+VB 10" ++ [CR; CR; LF; CR])
           \/ lit "MTI+VB 10" ++ [CR; LF]
              = firstn k (lit "MTI+VB 10" ++ [CR; CR; LF; CR]) ++ [LF])
       /\ exists q, lit "MTI+VB 10" ++ [CR; LF] = q ++ [LF].
Proof.
  assert (H : normalize (CBytes (lit "MTI+VB 10" ++ [CR; CR; LF; CR]))
              = Ret (lit "MTI+VB 10" ++ [CR; LF])) by (vm_compute; reflexivity).
  split; [reflexivity|]. split; [exact H|].
  exact (normalize_trims_then_terminates (CBytes (lit "MTI+VB 10" ++ [CR; CR; LF; CR]))
           (lit "MTI+VB 10" ++ [CR; CR; LF; CR]) _ eq_refl H).
Defined.

Lemma firstn_drop2 (l : list Z) x y : firstn (List.length (l ++ [x; y]) - 2) (l ++ [x; y]) = l.
Proof.
  rewrite length_app. simpl. replace (List.length l + 2 - 2)%nat with (List.length l) by lia.
  rewrite firstn_app, firstn_all, Nat.sub_diag. simpl. apply app_nil_r.
Qed.

(** The normalization is not idempotent.  For an ASCII str ending in two
    CRs after a last character [c] that is neither CR nor LF, only one CR is
    removed and an LF appended, so the command sent ends in CR LF; given
    that result again, the normalization strips the CR LF and sends the
    text with a bare LF. *)
Theorem normalize_not_idempotent (s : text) (c : Z) :
  forallb is_ascii (s ++ [c]) = true -> c <> LF -> c <> CR ->
  normalize (CStr (s ++ [c; CR; CR])) = Ret (s ++ [c; CR; LF])
  /\ normalize (CStr (s ++ [c; CR; LF])) = Ret (s ++ [c; LF]).
Proof.
  intros Ha Hlf Hcr.
  assert (Hcr' : forallb is_ascii ((s ++ [c]) ++ [CR]) = true)
    by (rewrite forallb_app, Ha; reflexivity).
  assert (A1 : forallb is_ascii (((s ++ [c]) ++ [CR]) ++ [CR]) = true)
    by (rewrite forallb_app, Hcr'; reflexivity).
  assert (A2 : forallb is_ascii (((s ++ [c]) ++ [CR]) ++ [LF]) = true)
    by (rewrite forallb_app, Hcr'; reflexivity).
  assert (Hc10 : (c =? 10) = false) by (apply Z.eqb_neq; exact Hlf).
  split.
  - replace (s ++ [c; CR; CR]) with (((s ++ [c]) ++ [CR]) ++ [CR])
      by (rewrite <- !app_assoc; reflexivity).
    unfold normalize, to_bytes. rewrite A1. simpl obind.
    unfold decode. rewrite (utf8_decode_ascii _ A1). simpl obind.
    rewrite (lastn_snoc 1), (lastn_snoc 0), lastn_0. simpl app.
    replace (list_Z_eqb [CR; CR] crlf || list_Z_eqb [CR; CR] lfcr) with false
      by reflexivity.
    cbv iota. rewrite (utf8_decode_ascii _ A1). simpl obind.
    rewrite (lastn_snoc 0), lastn_0. simpl app.
    replace (list_Z_eqb [CR] [13]) with true by reflexivity.
    rewrite firstn_snoc, (utf8_decode_ascii _ Hcr'). simpl obind.
    rewrite last_opt_snoc. simpl. rewrite <- !app_assoc. reflexivity.
  - replace (s ++ [c; CR; LF]) with ((s ++ [c]) ++ [CR; LF])
      by (rewrite <- !app_assoc; reflexivity).
    assert (A3 : forallb is_ascii ((s ++ [c]) ++ [CR; LF]) = true)
      by (rewrite forallb_app, Ha; reflexivity).
    unfold normalize, to_bytes. rewrite A3. simpl obind.
    unfold decode. rewrite (utf8_decode_ascii _ A3). simpl obind.
    replace (lastn 2 ((s ++ [c]) ++ [CR; LF])) with [CR; LF]
      by (change [CR; LF] with ([CR] ++ [LF]); rewrite app_assoc, (lastn_snoc 1),
            (lastn_snoc 0), lastn_0; reflexivity).
    replace (list_Z_eqb [CR; LF] crlf || list_Z_eqb [CR; LF] lfcr) with true
      by reflexivity.
    rewrite firstn_drop2, (utf8_decode_ascii _ Ha). simpl obind.
    rewrite (lastn_snoc 0), lastn_0, list_Z_eqb_neq.
    2: { intro E. injection E. unfold CR in Hcr. congruence. }
    rewrite (utf8_decode_ascii _ Ha). simpl obind. rewrite last_opt_snoc, Hc10.
    simpl. rewrite <- app_assoc. reflexivity.
Qed.

Lemma normalize_not_idempotent_witness :
  forallb is_ascii (lit "MTI+EN") = true /\ 78 <> LF /\ 78 <> CR
  /\ normalize (CStr (lit "MTI+E" ++ [78; CR; CR])) = Ret (lit "MTI+E" ++ [78; CR; LF])
  /\ normalize (CStr (lit "MTI+E" ++ [78; CR; LF])) = Ret (lit "MTI+E" ++ [78; LF]).
Proof.
  split; [reflexivity|]. split; [unfold LF; lia|]. split; [unfold CR; lia|].
  exact (normalize_not_idempotent (lit "MTI+E") 78 eq_refl
           ltac:(unfold LF; lia) ltac:(unfold CR; lia)).
Defined.
